(** * Element-similarity ("alchemy") matrices of qml/utils/alchemy.py

    A shallow embedding of [get_alchemy] and of the generators it
    dispatches to ([gen_pd], [gen_QNum_distances], [gen_custom]), with the
    two lookup tables [PTP] and [QtNm] they read; of the element-name
    tables of the same file; and of the helpers of qml/utils/utils.py
    ([ceil], [get_batch_size], [get_pairs], [get_unique], [check_sizes] and
    the scalar validators), in [Module Utils].

    Number model.  Python [int] is [Z].  Python [float] is idealised as a
    real number ([R]): rounding, overflow and underflow are not modelled,
    so [np.exp] is [exp] and a float is zero exactly when the real is.
    The code has two error paths the idealisation does not have: for a
    width [w] of magnitude [2^512] or more [w**2] raises [OverflowError],
    and for a width below about [1.6e-162] the product [4 * w**2] is [0.0]
    and the division raises [ZeroDivisionError].  Statements about the
    matrices of the table-based modes are therefore made of the calls that
    return, and a call is said to return when the arithmetic of one entry
    does ([periodic_arithmetic_returns], [QNum_arithmetic_returns]).
    Values are meant up to rounding; where a property depends on IEEE
    arithmetic itself it is checked on binary64 floats ([dot_float]).
    The half-integer spin tags of [QtNm] are kept as rationals ([Q]) in the
    table, so that the table stays computable, and are injected into [R]
    by [Q2R] where the source does float arithmetic on them.

    Error model.  A Python exception is a value of [exn]; a computation
    that may raise returns [result A].  [exit(1)] is [SystemExit 1]. *)

From Stdlib Require Import Reals Lra QArith Qreals PrimFloat.
From stdpp Require Import gmap strings list sorting.

#[local] Open Scope Z_scope.

(** ** Exceptions and the error monad *)

Inductive exn : Type :=
| KeyError (k : Z)
| IndexError
| ValueError
| ZeroDivisionError
| AssertionError (msg : string)
| SystemExit (code : Z).

Inductive result (A : Type) : Type :=
| Ok (a : A)
| Raise (e : exn).

Arguments Ok {A} a.
Arguments Raise {A} e.

Definition bind {A B : Type} (c : result A) (k : A -> result B) : result B :=
  match c with
  | Ok a => k a
  | Raise e => Raise e
  end.

Notation "'let*' x := c 'in' k" := (bind c (fun x => k))
  (at level 10, x name, c at level 200, k at level 200,
   format "'[v' 'let*'  x  :=  c  'in'  '/' k ']'").

(** [for x in xs: body], threading the mutated object [s] through the
    iterations and stopping at the first exception. *)
Fixpoint for_ {A S : Type} (xs : list A) (body : A -> S -> result S) (s : S)
  : result S :=
  match xs with
  | [] => Ok s
  | x :: xs' => let* s' := body x s in for_ xs' body s'
  end.

(** [range(n)]: empty when [n <= 0]. *)
Definition range (n : Z) : list Z := Z.of_nat <$> seq 0 (Z.to_nat n).

(** ** Dictionaries written as literals

    A dict display [{k1: v1, k2: v2, ...}] inserts its items from left to
    right, so a key written twice keeps the value written last. *)
Definition dict_display {V : Type} (items : list (Z * V)) : gmap Z V :=
  fold_left (fun d kv => <[kv.1 := kv.2]> d) items ∅.

(** [d[k]]: [KeyError] when the key is absent. *)
Definition getitem {V : Type} (d : gmap Z V) (k : Z) : result V :=
  match d !! k with
  | Some v => Ok v
  | None => Raise (KeyError k)
  end.

(** [d[k][n]]: the lookup, then a position of the row found. *)
Definition subscript {V W : Type} (row : result V) (position : V -> W)
  : result W :=
  let* v := row in Ok (position v).

(** The periodic-table positions [[period, group]], items in source order. *)
Definition PTP_items : list (Z * (Z * Z)) :=
  [ (1, (1, 1)); (2, (1, 8)); (3, (2, 1)); (4, (2, 2)); (5, (2, 3)); (6, (2, 4));
    (7, (2, 5)); (8, (2, 6)); (9, (2, 7)); (10, (2, 8)); (11, (3, 1)); (12, (3, 2));
    (13, (3, 3)); (14, (3, 4)); (15, (3, 5)); (16, (3, 6)); (17, (3, 7)); (18, (3, 8));
    (19, (4, 1)); (20, (4, 2)); (31, (4, 3)); (32, (4, 4)); (33, (4, 5)); (34, (4, 6));
    (35, (4, 7)); (36, (4, 8)); (21, (4, 9)); (22, (4, 10)); (23, (4, 11)); (24, (4, 12));
    (25, (4, 13)); (26, (4, 14)); (27, (4, 15)); (28, (4, 16)); (29, (4, 17)); (30, (4, 18));
    (37, (5, 1)); (38, (5, 2)); (49, (5, 3)); (50, (5, 4)); (51, (5, 5)); (52, (5, 6));
    (53, (5, 7)); (54, (5, 8)); (39, (5, 9)); (40, (5, 10)); (41, (5, 11)); (42, (5, 12));
    (43, (5, 13)); (44, (5, 14)); (45, (5, 15)); (46, (5, 16)); (47, (5, 17)); (48, (5, 18));
    (55, (6, 1)); (56, (6, 2)); (81, (6, 3)); (82, (6, 4)); (83, (6, 5)); (84, (6, 6));
    (85, (6, 7)); (86, (6, 8)); (72, (6, 10)); (73, (6, 11)); (74, (6, 12)); (75, (6, 13));
    (76, (6, 14)); (77, (6, 15)); (78, (6, 16)); (79, (6, 17)); (80, (6, 18)); (57, (6, 19));
    (58, (6, 20)); (59, (6, 21)); (60, (6, 22)); (61, (6, 23)); (62, (6, 24)); (63, (6, 25));
    (64, (6, 26)); (65, (6, 27)); (66, (6, 28)); (67, (6, 29)); (68, (6, 30)); (69, (6, 31));
    (70, (6, 32)); (71, (6, 33)); (87, (7, 1)); (88, (7, 2)); (113, (7, 3)); (114, (7, 4));
    (115, (7, 5)); (116, (7, 6)); (117, (7, 7)); (118, (7, 8)); (104, (7, 10)); (105, (7, 11));
    (106, (7, 12)); (107, (7, 13)); (108, (7, 14)); (109, (7, 15)); (110, (7, 16)); (111, (7, 17));
    (112, (7, 18)); (89, (7, 19)); (90, (7, 20)); (91, (7, 21)); (92, (7, 22)); (93, (7, 23));
    (94, (7, 24)); (95, (7, 25)); (96, (7, 26)); (97, (7, 27)); (98, (7, 28)); (99, (7, 29));
    (100, (7, 30)); (101, (7, 31)); (101, (7, 32)); (102, (7, 14)); (103, (7, 33)) ].

Definition PTP : gmap Z (Z * Z) := dict_display PTP_items.

(** The quantum-number tuples [[n, m, l, s]], items in source order. *)
Definition QtNm_items : list (Z * (Z * Z * Z * Q)) :=
  [ (1, (1, 0, 0, (1 # 2)%Q)); (2, (1, 0, 0, (-1 # 2)%Q)); (3, (2, 0, 0, (1 # 2)%Q));
    (4, (2, 0, 0, (-1 # 2)%Q)); (5, (2, (-1), 1, (1 # 2)%Q)); (6, (2, 0, 1, (1 # 2)%Q));
    (7, (2, 1, 1, (1 # 2)%Q)); (8, (2, (-1), 1, (-1 # 2)%Q)); (9, (2, 0, 1, (-1 # 2)%Q));
    (10, (2, 1, 1, (-1 # 2)%Q)); (11, (3, 0, 0, (1 # 2)%Q)); (12, (3, 0, 0, (-1 # 2)%Q));
    (13, (3, (-1), 1, (1 # 2)%Q)); (14, (3, 0, 1, (1 # 2)%Q)); (15, (3, 1, 1, (1 # 2)%Q));
    (16, (3, (-1), 1, (-1 # 2)%Q)); (17, (3, 0, 1, (-1 # 2)%Q)); (18, (3, 1, 1, (-1 # 2)%Q));
    (19, (4, 0, 0, (1 # 2)%Q)); (20, (4, 0, 0, (-1 # 2)%Q)); (31, (4, (-1), 2, (1 # 2)%Q));
    (32, (4, 0, 1, (1 # 2)%Q)); (33, (4, 1, 1, (1 # 2)%Q)); (34, (4, (-1), 1, (-1 # 2)%Q));
    (35, (4, 0, 1, (-1 # 2)%Q)); (36, (4, 1, 1, (-1 # 2)%Q)); (21, (4, (-2), 2, (1 # 2)%Q));
    (22, (4, (-1), 2, (1 # 2)%Q)); (23, (4, 0, 2, (1 # 2)%Q)); (24, (4, 1, 2, (1 # 2)%Q));
    (25, (4, 2, 2, (1 # 2)%Q)); (26, (4, (-2), 2, (-1 # 2)%Q)); (27, (4, (-1), 2, (-1 # 2)%Q));
    (28, (4, 0, 2, (-1 # 2)%Q)); (29, (4, 1, 2, (-1 # 2)%Q)); (30, (4, 2, 2, (-1 # 2)%Q));
    (37, (5, 0, 0, (1 # 2)%Q)); (38, (5, 0, 0, (-1 # 2)%Q)); (49, (5, (-1), 1, (1 # 2)%Q));
    (50, (5, 0, 1, (1 # 2)%Q)); (51, (5, 1, 1, (1 # 2)%Q)); (52, (5, (-1), 1, (-1 # 2)%Q));
    (53, (5, 0, 1, (-1 # 2)%Q)); (54, (5, 1, 1, (-1 # 2)%Q)); (39, (5, (-2), 2, (1 # 2)%Q));
    (40, (5, (-1), 2, (1 # 2)%Q)); (41, (5, 0, 2, (1 # 2)%Q)); (42, (5, 1, 2, (1 # 2)%Q));
    (43, (5, 2, 2, (1 # 2)%Q)); (44, (5, (-2), 2, (-1 # 2)%Q)); (45, (5, (-1), 2, (-1 # 2)%Q));
    (46, (5, 0, 2, (-1 # 2)%Q)); (47, (5, 1, 2, (-1 # 2)%Q)); (48, (5, 2, 2, (-1 # 2)%Q));
    (55, (6, 0, 0, (1 # 2)%Q)); (56, (6, 0, 0, (-1 # 2)%Q)); (81, (6, (-1), 1, (1 # 2)%Q));
    (82, (6, 0, 1, (1 # 2)%Q)); (83, (6, 1, 1, (1 # 2)%Q)); (84, (6, (-1), 1, (-1 # 2)%Q));
    (85, (6, 0, 1, (-1 # 2)%Q)); (86, (6, 1, 1, (-1 # 2)%Q)); (71, (6, (-2), 2, (1 # 2)%Q));
    (72, (6, (-1), 2, (1 # 2)%Q)); (73, (6, 0, 2, (1 # 2)%Q)); (74, (6, 1, 2, (1 # 2)%Q));
    (75, (6, 2, 2, (1 # 2)%Q)); (76, (6, (-2), 2, (-1 # 2)%Q)); (77, (6, (-1), 2, (-1 # 2)%Q));
    (78, (6, 0, 2, (-1 # 2)%Q)); (79, (6, 1, 2, (-1 # 2)%Q)); (80, (6, 2, 2, (-1 # 2)%Q));
    (57, (6, (-3), 3, (1 # 2)%Q)); (58, (6, (-2), 3, (1 # 2)%Q)); (59, (6, (-1), 3, (1 # 2)%Q));
    (60, (6, 0, 3, (1 # 2)%Q)); (61, (6, 1, 3, (1 # 2)%Q)); (62, (6, 2, 3, (1 # 2)%Q));
    (63, (6, 3, 3, (1 # 2)%Q)); (64, (6, (-3), 3, (-1 # 2)%Q)); (65, (6, (-2), 3, (-1 # 2)%Q));
    (66, (6, (-1), 3, (-1 # 2)%Q)); (67, (6, 0, 3, (-1 # 2)%Q)); (68, (6, 1, 3, (-1 # 2)%Q));
    (69, (6, 2, 3, (-1 # 2)%Q)); (70, (6, 3, 3, (-1 # 2)%Q)); (87, (7, 0, 0, (1 # 2)%Q));
    (88, (7, 0, 0, (-1 # 2)%Q)); (113, (7, (-1), 1, (1 # 2)%Q)); (114, (7, 0, 1, (1 # 2)%Q));
    (115, (7, 1, 1, (1 # 2)%Q)); (116, (7, (-1), 1, (-1 # 2)%Q)); (117, (7, 0, 1, (-1 # 2)%Q));
    (118, (7, 1, 1, (-1 # 2)%Q)); (103, (7, (-2), 2, (1 # 2)%Q)); (104, (7, (-1), 2, (1 # 2)%Q));
    (105, (7, 0, 2, (1 # 2)%Q)); (106, (7, 1, 2, (1 # 2)%Q)); (107, (7, 2, 2, (1 # 2)%Q));
    (108, (7, (-2), 2, (-1 # 2)%Q)); (109, (7, (-1), 2, (-1 # 2)%Q)); (110, (7, 0, 2, (-1 # 2)%Q));
    (111, (7, 1, 2, (-1 # 2)%Q)); (112, (7, 2, 2, (-1 # 2)%Q)); (89, (7, (-3), 3, (1 # 2)%Q));
    (90, (7, (-2), 3, (1 # 2)%Q)); (91, (7, (-1), 3, (1 # 2)%Q)); (92, (7, 0, 3, (1 # 2)%Q));
    (93, (7, 1, 3, (1 # 2)%Q)); (94, (7, 2, 3, (1 # 2)%Q)); (95, (7, 3, 3, (1 # 2)%Q));
    (96, (7, (-3), 3, (-1 # 2)%Q)); (97, (7, (-2), 3, (-1 # 2)%Q)); (98, (7, (-1), 3, (-1 # 2)%Q));
    (99, (7, 0, 3, (-1 # 2)%Q)); (100, (7, 1, 3, (-1 # 2)%Q)); (101, (7, 2, 3, (-1 # 2)%Q));
    (102, (7, 3, 3, (-1 # 2)%Q)) ].

Definition QtNm : gmap Z (Z * Z * Z * Q) := dict_display QtNm_items.

(** ** The numpy operations the module uses

    A two-dimensional array is the list of its rows. *)

Abbreviation matrix := (list (list R)) (only parsing).

(** [np.zeros((r, c))]; numpy refuses negative dimensions. *)
Definition np_zeros2 (r c : Z) : result matrix :=
  if decide (r < 0 ∨ c < 0) then Raise ValueError
  else Ok (replicate (Z.to_nat r) (replicate (Z.to_nat c) 0%R)).

(** [np.eye(n)]: ones on the diagonal, zeros elsewhere. *)
Definition np_eye (n : Z) : result matrix :=
  if decide (n < 0) then Raise ValueError
  else Ok ((fun i => (fun j => if decide (i = j) then 1%R else 0%R) <$> range n)
             <$> range n).

(** An index [k] along an axis of length [len]: negative indices count
    from the end, anything else out of range is an [IndexError].  This is
    numpy's rule for the indices that fit a C long; a Python int outside
    [[-2^63, 2^63)] fails in the conversion already, which is not
    modelled. *)
Definition np_index (len : nat) (k : Z) : result nat :=
  if decide (0 <= k < Z.of_nat len) then Ok (Z.to_nat k)
  else if decide (- Z.of_nat len <= k < 0) then Ok (Z.to_nat (k + Z.of_nat len))
  else Raise IndexError.

(** [pd[i,j] = v] *)
Definition setitem2 (pd : matrix) (i j : Z) (v : R) : result matrix :=
  let* i' := np_index (length pd) i in
  match pd !! i' with
  | Some row =>
      let* j' := np_index (length row) j in
      Ok (<[i' := <[j' := v]> row]> pd)
  | None => Raise IndexError
  end.

(** [pd[i][j]], the way a caller reads an entry. *)
Definition getitem2 (pd : matrix) (i j : Z) : result R :=
  let* i' := np_index (length pd) i in
  match pd !! i' with
  | Some row =>
      let* j' := np_index (length row) j in
      match row !! j' with
      | Some v => Ok v
      | None => Raise IndexError
      end
  | None => Raise IndexError
  end.

(** [tmp[k,:] = v]: the row is replaced when the lengths agree, a vector
    of length one is broadcast, any other length is a [ValueError]. *)
Definition setrow (tmp : matrix) (k : Z) (v : list R) : result matrix :=
  let* k' := np_index (length tmp) k in
  match tmp !! k' with
  | Some row =>
      if decide (length v = length row) then Ok (<[k' := v]> tmp)
      else match v with
           | [x] => Ok (<[k' := replicate (length row) x]> tmp)
           | _ => Raise ValueError
           end
  | None => Raise IndexError
  end.

(** The dot product of two rows over the reals: the value [np.dot]
    approximates, without its rounding, overflow or NaN. *)
Definition dot (u v : list R) : R := foldr Rplus 0%R (zip_with Rmult u v).

(** [np.dot(a, b.T)]: entry [(i,j)] is the dot product of row [i] of [a]
    with row [j] of [b]. *)
Definition np_dot_T (a b : matrix) : matrix := (fun u => dot u <$> b) <$> a.

(** [x / y] on Python numbers with a float divisor: a zero divisor is a
    [ZeroDivisionError].  The divisor is a real here, zero only when the
    width is; in the code [4 * w**2] is also [0.0] for a tiny [w], and
    [w**2] raises for a huge one (see the number model). *)
Definition py_div (x y : R) : result R :=
  if Req_dec_T y 0 then Raise ZeroDivisionError else Ok (x / y)%R.

Definition py_assert (c : bool) (msg : string) : result unit :=
  if c then Ok tt else Raise (AssertionError msg).

(** ** The distance functions and the matrix generators *)

(** The four positions of a [QtNm] row. *)
Definition idx0 (q : Z * Z * Z * Q) : Z := q.1.1.1.
Definition idx1 (q : Z * Z * Z * Q) : Z := q.1.1.2.
Definition idx2 (q : Z * Z * Z * Q) : Z := q.1.2.
Definition idx3 (q : Z * Z * Z * Q) : Q := q.2.

Definition QNum_distance (a b : Z) (n_width m_width l_width s_width : R)
  : result R :=
  let* na := subscript (getitem QtNm a) idx0 in
  let* nb := subscript (getitem QtNm b) idx0 in
  let* ma := subscript (getitem QtNm a) idx1 in
  let* mb := subscript (getitem QtNm b) idx1 in
  let* la := subscript (getitem QtNm a) idx2 in
  let* lb := subscript (getitem QtNm b) idx2 in
  let* sa := subscript (getitem QtNm a) idx3 in
  let* sb := subscript (getitem QtNm b) idx3 in
  let* tn := py_div (- IZR (na - nb) ^ 2) (4 * n_width ^ 2) in
  let* tm := py_div (IZR (ma - mb) ^ 2) (4 * m_width ^ 2) in
  let* tl := py_div (IZR (la - lb) ^ 2) (4 * l_width ^ 2) in
  let* ts := py_div ((Q2R sa - Q2R sb) ^ 2) (4 * s_width ^ 2) in
  Ok (exp (tn - tm - tl - ts)).

Definition gen_QNum_distances (emax : Z) (n_width m_width l_width s_width : R)
  : result matrix :=
  let* pd := np_zeros2 emax emax in
  for_ (range emax) (fun i pd =>
    for_ (range emax) (fun j pd =>
      let* d := QNum_distance (i + 1) (j + 1) n_width m_width l_width s_width in
      setitem2 pd i j d) pd) pd.

Definition periodic_distance (a b : Z) (r_width c_width : R) : result R :=
  let* ra := subscript (getitem PTP a) fst in
  let* rb := subscript (getitem PTP b) fst in
  let* ca := subscript (getitem PTP a) snd in
  let* cb := subscript (getitem PTP b) snd in
  let* tr := py_div (- IZR (ra - rb) ^ 2) (4 * r_width ^ 2) in
  let* tc := py_div (IZR (ca - cb) ^ 2) (4 * c_width ^ 2) in
  Ok (exp (tr - tc)).

Definition gen_pd (emax : Z) (r_width c_width : R) : result matrix :=
  let* pd := np_zeros2 emax emax in
  for_ (range emax) (fun i pd =>
    for_ (range emax) (fun j pd =>
      let* d := periodic_distance (i + 1) (j + 1) r_width c_width in
      setitem2 pd i j d) pd) pd.

(** The keys of the model are integers, so the [isinstance] assertion of
    the first loop always passes. *)
Definition isinstance_int (k : Z) : bool := true.

Definition check_if_unique (iterator : list nat) : bool :=
  bool_decide (size (list_to_set iterator : gset nat) = 1%nat).

(** [e_vec] is the dict in [items()] order (insertion order); a dict
    holds each key once, so statements about dicts take [NoDup] keys. *)
Definition gen_custom (e_vec : list (Z * list R)) (emax : Z) : result matrix :=
  let* num_dims :=
    for_ e_vec (fun kv num_dims =>
      let* _ := py_assert (isinstance_int kv.1) "Error! Keys need to be int" in
      Ok (num_dims ++ [length kv.2])) [] in
  let* _ := py_assert (check_if_unique num_dims)
              "Error! Unequal number of dimensions" in
  let* d := match num_dims with d :: _ => Ok d | [] => Raise IndexError end in
  let* tmp := np_zeros2 emax (Z.of_nat d) in
  let* tmp := for_ e_vec (fun kv tmp => setrow tmp kv.1 kv.2) tmp in
  Ok (np_dot_T tmp tmp).

(** The [alchemy] argument: a numpy array or a mode string. *)
Inductive alchemy_arg : Type :=
| Ndarray (a : matrix)
| Str (s : string).

(** The line [print] writes for an unknown mode. *)
Definition unknown_method_message (alchemy : string) : string :=
  String.append "QML ERROR: Unknown alchemical method specified: " alchemy.

(** The result pairs the lines printed with the value returned or the
    exception raised. *)
Definition get_alchemy (alchemy : alchemy_arg) (emax : Z) (r_width c_width : R)
    (elemental_vectors : list (Z * list R))
    (n_width m_width l_width s_width : R)
  : list string * result (bool * matrix) :=
  match alchemy with
  | Ndarray a => ([], Ok (true, a))
  | Str s =>
      if String.eqb s "off" then
        ([], let* pd := np_eye emax in Ok (false, pd))
      else if String.eqb s "periodic-table" then
        ([], let* pd := gen_pd emax r_width c_width in Ok (true, pd))
      else if String.eqb s "quantum-numbers" then
        ([], let* pd := gen_QNum_distances emax n_width m_width l_width s_width in
             Ok (true, pd))
      else if String.eqb s "custom" then
        ([], let* pd := gen_custom elemental_vectors emax in Ok (true, pd))
      else
        ([unknown_method_message s], Raise (SystemExit 1))
  end.

(** The defaults of the keyword arguments. *)
Definition default_emax : Z := 100.
Definition default_width : R := (1 / 1000)%R.

(** ** The element names of alchemy.py *)

(** [ELEMENT_NAME], items in source order. *)
Definition ELEMENT_NAME_items : list (Z * string) :=
  [ (1, "H"); (2, "He"); (3, "Li"); (4, "Be"); (5, "B"); (6, "C");
    (7, "N"); (8, "O"); (9, "F"); (10, "Ne"); (11, "Na"); (12, "Mg");
    (13, "Al"); (14, "Si"); (15, "P"); (16, "S"); (17, "Cl"); (18, "Ar");
    (19, "K"); (20, "Ca"); (21, "Sc"); (22, "Ti"); (23, "V"); (24, "Cr");
    (25, "Mn"); (26, "Fe"); (27, "Co"); (28, "Ni"); (29, "Cu"); (30, "Zn");
    (31, "Ga"); (32, "Ge"); (33, "As"); (34, "Se"); (35, "Br"); (36, "Kr");
    (37, "Rb"); (38, "Sr"); (39, "Y"); (40, "Zr"); (41, "Nb"); (42, "Mo");
    (43, "Tc"); (44, "Ru"); (45, "Rh"); (46, "Pd"); (47, "Ag"); (48, "Cd");
    (49, "In"); (50, "Sn"); (51, "Sb"); (52, "Te"); (53, "I"); (54, "Xe");
    (55, "Cs"); (56, "Ba"); (57, "La"); (58, "Ce"); (59, "Pr"); (60, "Nd");
    (61, "Pm"); (62, "Sm"); (63, "Eu"); (64, "Gd"); (65, "Tb"); (66, "Dy");
    (67, "Ho"); (68, "Er"); (69, "Tm"); (70, "Yb"); (71, "Lu"); (72, "Hf");
    (73, "Ta"); (74, "W"); (75, "Re"); (76, "Os"); (77, "Ir"); (78, "Pt");
    (79, "Au"); (80, "Hg"); (81, "Tl"); (82, "Pb"); (83, "Bi"); (84, "Po");
    (85, "At"); (86, "Rn"); (87, "Fr"); (88, "Ra"); (89, "Ac"); (90, "Th");
    (91, "Pa"); (92, "U"); (93, "Np"); (94, "Pu"); (95, "Am"); (96, "Cm");
    (97, "Bk"); (98, "Cf"); (99, "Es"); (100, "Fm"); (101, "Md"); (102, "No");
    (103, "Lr"); (104, "Rf"); (105, "Db"); (106, "Sg"); (107, "Bh"); (108, "Hs");
    (109, "Mt"); (110, "Ds"); (111, "Rg"); (112, "Cn"); (114, "Uuq"); (116, "Uuh") ]%string.

Definition ELEMENT_NAME : gmap Z string := dict_display ELEMENT_NAME_items.

(** A dict display with string keys. *)
Definition str_dict_display {V : Type} (items : list (string * V)) : gmap string V :=
  fold_left (fun d kv => <[kv.1 := kv.2]> d) items ∅.

(** [NUCLEAR_CHARGE], items in source order. *)
Definition NUCLEAR_CHARGE_items : list (string * Z) :=
  [ ("H", 1); ("He", 2); ("Li", 3); ("Be", 4); ("B", 5); ("C", 6);
    ("N", 7); ("O", 8); ("F", 9); ("Ne", 10); ("Na", 11); ("Mg", 12);
    ("Al", 13); ("Si", 14); ("P", 15); ("S", 16); ("Cl", 17); ("Ar", 18);
    ("K", 19); ("Ca", 20); ("Sc", 21); ("Ti", 22); ("V", 23); ("Cr", 24);
    ("Mn", 25); ("Fe", 26); ("Co", 27); ("Ni", 28); ("Cu", 29); ("Zn", 30);
    ("Ga", 31); ("Ge", 32); ("As", 33); ("Se", 34); ("Br", 35); ("Kr", 36);
    ("Rb", 37); ("Sr", 38); ("Y", 39); ("Zr", 40); ("Nb", 41); ("Mo", 42);
    ("Tc", 43); ("Ru", 44); ("Rh", 45); ("Pd", 46); ("Ag", 47); ("Cd", 48);
    ("In", 49); ("Sn", 50); ("Sb", 51); ("Te", 52); ("I", 53); ("Xe", 54);
    ("Cs", 55); ("Ba", 56); ("La", 57); ("Ce", 58); ("Pr", 59); ("Nd", 60);
    ("Pm", 61); ("Sm", 62); ("Eu", 63); ("Gd", 64); ("Tb", 65); ("Dy", 66);
    ("Ho", 67); ("Er", 68); ("Tm", 69); ("Yb", 70); ("Lu", 71); ("Hf", 72);
    ("Ta", 73); ("W", 74); ("Re", 75); ("Os", 76); ("Ir", 77); ("Pt", 78);
    ("Au", 79); ("Hg", 80); ("Tl", 81); ("Pb", 82); ("Bi", 83); ("Po", 84);
    ("At", 85); ("Rn", 86); ("Fr", 87); ("Ra", 88); ("Ac", 89); ("Th", 90);
    ("Pa", 91); ("U", 92); ("Np", 93); ("Pu", 94); ("Am", 95); ("Cm", 96);
    ("Bk", 97); ("Cf", 98); ("Es", 99); ("Fm", 100); ("Md", 101); ("No", 102);
    ("Lr", 103); ("Rf", 104); ("Db", 105); ("Sg", 106); ("Bh", 107); ("Hs", 108);
    ("Mt", 109); ("Ds", 110); ("Rg", 111); ("Cn", 112); ("Uuq", 114); ("Uuh", 116) ]%string.

Definition NUCLEAR_CHARGE : gmap string Z := str_dict_display NUCLEAR_CHARGE_items.

(** ** The helpers of utils.py

    utils.py raises its own [InputError]; its functions get their own
    exception type and error monad. *)

Module Utils.

Inductive exn : Type :=
| InputError (template : string) (args : list Z)
| AttributeError
| IndexError
| ZeroDivisionError.

Inductive result (A : Type) : Type :=
| Ok (a : A)
| Raise (e : exn).

Arguments Ok {A} a.
Arguments Raise {A} e.

Definition bind {A B : Type} (c : result A) (k : A -> result B) : result B :=
  match c with
  | Ok a => k a
  | Raise e => Raise e
  end.

Notation "'let!' x := c 'in' k" := (bind c (fun x => k))
  (at level 10, x name, c at level 200, k at level 200,
   format "'[v' 'let!'  x  :=  c  'in'  '/' k ']'").

(** [template % args]: the message is kept as the template and the
    integers formatted into it. *)
Definition raise_InputError {A : Type} (template : string) (args : list Z)
  : result A :=
  Raise (InputError template args).

(** An argument of [check_sizes]: [None], or an array, of which only the
    shape is read. *)
Abbreviation array_arg := (option (list Z)) (only parsing).

(** [a.shape]: [None] has no such attribute. *)
Definition shape_of (a : array_arg) : result (list Z) :=
  match a with
  | Some sh => Ok sh
  | None => Raise AttributeError
  end.

(** [a.shape[k]] *)
Definition dim (a : array_arg) (k : nat) : result Z :=
  let! sh := shape_of a in
  match sh !! k with
  | Some n => Ok n
  | None => Raise IndexError
  end.

Definition is_None (a : array_arg) : bool :=
  match a with None => true | Some _ => false end.

(** [if cond: raise InputError(template % args)], where computing the
    arguments of the message may itself raise. *)
Definition raise_if (cond : bool) (template : string) (args : result (list Z))
  : result unit :=
  if cond then let! args := args in raise_InputError template args
  else Ok tt.

(** The tuple [(a0, a1, ...)] of the message arguments, evaluated from
    left to right. *)
Fixpoint tuple (items : list (result Z)) : result (list Z) :=
  match items with
  | [] => Ok []
  | c :: items' => let! n := c in let! ns := tuple items' in Ok (n :: ns)
  end.

(** [a != b or rest], the right operand evaluated only when needed. *)
Definition ne_or (a b : result Z) (rest : result bool) : result bool :=
  let! a := a in let! b := b in
  if negb (a =? b) then Ok true else rest.

(** [a != b] *)
Definition ne (a b : result Z) : result bool := ne_or a b (Ok false).

Definition check_sizes (x y dy classes : array_arg) : result unit :=
  if is_None dy && is_None classes then
    let! c := ne (dim x 0) (dim y 0) in
    raise_if c
      "The descriptor and the properties should have the same first number of elements in the first dimension. Got %s and %s"
      (tuple [dim x 0; dim y 0])
  else if is_None y && is_None dy then
    if is_None classes then
      raise_InputError "Only x is not none." []
    else
      let! c := ne (dim x 0) (dim classes 0) in
      let! _ := raise_if c
        "Different number of samples in the descriptor and the classes: %s and %s."
        (tuple [dim x 0; dim classes 0]) in
      let! sh := shape_of x in
      if (length sh =? 3)%nat then
        let! c := ne (dim x 1) (dim classes 1) in
        raise_if c
          "The number of atoms in the descriptor and in the classes is different: %s and %s."
          (tuple [dim x 1; dim classes 1])
      else Ok tt
  else if is_None dy && negb (is_None classes) then
    let! c := ne_or (dim x 0) (dim y 0) (ne (dim x 0) (dim classes 0)) in
    let! _ := raise_if c
      "All x, y and classes should have the first number of elements in the first dimension. Got %s, %s and %s"
      (tuple [dim x 0; dim y 0; dim classes 0]) in
    let! sh := shape_of x in
    if (length sh =? 3)%nat then
      let! c := ne (dim x 1) (dim classes 1) in
      raise_if c
        "x and classes should have the same number of elements in the 2nd dimension. Got %s and %s"
        (tuple [dim x 1; dim classes 1])
    else Ok tt
  else
    let! c := ne_or (dim x 0) (dim y 0)
                (ne_or (dim x 0) (dim dy 0) (ne (dim x 0) (dim classes 0))) in
    let! _ := raise_if c
      "All x, y, dy and classes should have the first number of elements in the first dimension. Got %s, %s, %s and %s"
      (tuple [dim x 0; dim y 0; dim dy 0; dim classes 0]) in
    let! c := ne_or (dim x 1) (dim dy 1) (ne (dim x 1) (dim classes 1)) in
    raise_if c
      "x, dy and classes should have the same number of elements in the 2nd dimension. Got %s, %s and %s"
      (tuple [dim x 1; dim dy 1; dim classes 1]).

(** [get_unique] on lists of lists of integers: the set of all items,
    sorted. *)
Definition get_unique (x : list (list Z)) : list Z :=
  merge_sort Z.le (elements (list_to_set (concat x) : gset Z)).

(** [enumerate(x)] *)
Definition enumerate {A : Type} (x : list A) : list (nat * A) := imap pair x.

(** A pair is the two-element list [[v, w]]. *)
Definition get_pairs {A : Type} (x : list A) : list (list A) :=
  fold_left (fun pairs iv =>
    fold_left (fun pairs w => pairs ++ [[iv.2; w]]) (drop iv.1 x) pairs)
    (enumerate x) [].

(** [a // b] on integers rounds towards minus infinity, as [Z.div] does. *)
Definition floordiv (a b : Z) : result Z :=
  if decide (b = 0) then Raise ZeroDivisionError else Ok (a / b).

Definition ceil (a b : Z) : result Z :=
  let! q := floordiv (- a) b in Ok (- q).

(** The result pairs the lines printed with the value returned or the
    exception raised. *)
Definition get_batch_size (batch_size n_samples : Z) : list string * result Z :=
  if decide (batch_size > n_samples) then
    (["Warning: batch_size larger than sample size. It is going to be clipped"%string],
     Ok (Z.min n_samples batch_size))
  else
    ([], let! batches := ceil n_samples batch_size in
         let! better_batch_size := ceil n_samples batches in
         Ok better_batch_size).

(** The Python values the scalar validators are asked about.  An array
    is known by its shape; floats are idealised as reals. *)
#[warnings="-register-all"]
Inductive value : Type :=
| VNone
| VBool (b : bool)
| VInt (z : Z)
| VFloat (r : R)
| VStr (s : string)
| VTuple (items : list value)
| VList (items : list value)
| VNdarray (shape : list Z)
| VDict (items : list (value * value)).

(** [isinstance(x, (tuple, list, np.ndarray))] *)
Definition is_array_like (x : value) : bool :=
  match x with
  | VTuple _ | VList _ | VNdarray _ => true
  | _ => false
  end.

Definition is_string (x : value) : bool :=
  match x with VStr _ => true | _ => false end.

Definition is_dict (x : value) : bool :=
  match x with VDict _ => true | _ => false end.

(** [isinstance(x, (float, int))]; [bool] is a subclass of [int]. *)
Definition is_numeric (x : value) : bool :=
  match x with
  | VBool _ | VInt _ | VFloat _ => true
  | _ => false
  end.

(** [isinstance(x, int)] *)
Definition _is_integer (x : value) : bool :=
  match x with
  | VBool _ | VInt _ => true
  | _ => false
  end.

(** [x > 0], [x >= 0] and [x != 0] on a number; [True] counts as 1 and
    [False] as 0.  The validators reach a comparison only behind
    [is_numeric] or [_is_integer], so the last case is never evaluated. *)
Definition gt_zero (x : value) : bool :=
  match x with
  | VBool b => b
  | VInt z => 0 <? z
  | VFloat r => if Rlt_dec 0 r then true else false
  | _ => false
  end.

Definition ge_zero (x : value) : bool :=
  match x with
  | VBool b => true
  | VInt z => 0 <=? z
  | VFloat r => if Rle_dec 0 r then true else false
  | _ => false
  end.

Definition ne_zero (x : value) : bool :=
  match x with
  | VBool b => b
  | VInt z => negb (z =? 0)
  | VFloat r => if Req_dec_T r 0 then false else true
  | _ => false
  end.

Definition is_positive (x : value) : bool :=
  negb (is_array_like x) && is_numeric x && gt_zero x.

Definition is_positive_or_zero (x : value) : bool :=
  negb (is_array_like x) && is_numeric x && ge_zero x.

Definition is_positive_integer (x : value) : bool :=
  negb (is_array_like x) && _is_integer x && gt_zero x.

Definition is_positive_integer_or_zero (x : value) : bool :=
  negb (is_array_like x) && _is_integer x && ge_zero x.

Definition is_non_zero_integer (x : value) : bool :=
  _is_integer x && ne_zero x.

End Utils.

(** ** Vocabulary of the statements

    None of the definitions below is code of the module: they name the
    loop shape the two table-based generators share, the values the
    distance functions compute, and the properties the claims speak of. *)

(** Two nested loops visit the cells [(i, j)] in row-major order. *)
Definition cells (rows cols : list Z) : list (Z * Z) :=
  i ← rows; (fun j => (i, j)) <$> cols.

(** The body both generators run on a cell: compute the entry, store it. *)
Definition store (f : Z -> Z -> result R) (c : Z * Z) (pd : matrix) : result matrix :=
  let* d := f c.1 c.2 in setitem2 pd c.1 c.2 d.

(** [gen_pd] and [gen_QNum_distances] with the distance function left
    open: [f i j] is the entry computed for the cell [(i, j)]. *)
Definition fill (f : Z -> Z -> result R) (emax : Z) : result matrix :=
  let* pd := np_zeros2 emax emax in
  for_ (range emax) (fun i pd =>
    for_ (range emax) (fun j pd =>
      let* d := f i j in setitem2 pd i j d) pd) pd.

(** An array of [r] rows of [c] entries each. *)
Definition shape (r c : nat) (M : matrix) : Prop :=
  length M = r /\ Forall (fun row => length row = c) M.

(** A cell of an array of that shape. *)
Definition in_bounds (r c : nat) (ij : Z * Z) : Prop :=
  0 <= ij.1 < Z.of_nat r /\ 0 <= ij.2 < Z.of_nat c.

(** The atomic numbers 1 to 118. *)
Definition atomic_numbers : list Z := Z.of_nat <$> seq 1 118.

(** The value [periodic_distance] computes from two table rows. *)
Definition periodic_similarity (pa pb : Z * Z) (r_width c_width : R) : R :=
  exp (- IZR (pa.1 - pb.1) ^ 2 / (4 * r_width ^ 2)
       - IZR (pa.2 - pb.2) ^ 2 / (4 * c_width ^ 2)).

(** The value [QNum_distance] computes from two table rows. *)
Definition QNum_similarity (qa qb : Z * Z * Z * Q)
    (n_width m_width l_width s_width : R) : R :=
  exp (- IZR (idx0 qa - idx0 qb) ^ 2 / (4 * n_width ^ 2)
       - IZR (idx1 qa - idx1 qb) ^ 2 / (4 * m_width ^ 2)
       - IZR (idx2 qa - idx2 qb) ^ 2 / (4 * l_width ^ 2)
       - (Q2R (idx3 qa) - Q2R (idx3 qb)) ^ 2 / (4 * s_width ^ 2)).

(** The exception of the second assertion of [gen_custom]. *)
Definition unequal_dimensions : exn :=
  AssertionError "Error! Unequal number of dimensions".

(** The second loop of [gen_custom]. *)
Definition assign_rows (e_vec : list (Z * list R)) (tmp : matrix) : result matrix :=
  for_ e_vec (fun kv tmp => setrow tmp kv.1 kv.2) tmp.


(** The vector the dict holds under key [k], the zero vector of length
    [d] when it holds none. *)
Definition supplied_vector (e_vec : list (Z * list R)) (d : nat) (k : Z) : list R :=
  default (replicate d 0%R) ((list_to_map e_vec : gmap Z (list R)) !! k).

(** The entry the specification describes for the custom mode: the dot
    product of the vectors supplied for the elements [i + 1] and [j + 1]. *)
Definition custom_entry_spec (e_vec : list (Z * list R)) (d : nat) (i j : Z) : R :=
  dot (supplied_vector e_vec d (i + 1)) (supplied_vector e_vec d (j + 1)).

(** The four mode strings [get_alchemy] compares its argument with. *)
Definition modes : list string :=
  ["off"; "periodic-table"; "quantum-numbers"; "custom"]%string.


(** The identity matrix of size [n], entry by entry. *)
Definition is_identity (n : Z) (M : matrix) : Prop :=
  shape (Z.to_nat n) (Z.to_nat n) M /\
  forall i j, 0 <= i < n -> 0 <= j < n ->
    getitem2 M i j = Ok (if decide (i = j) then 1%R else 0%R).


(** The line [get_batch_size] prints when it clips. *)
Definition batch_warning : string :=
  "Warning: batch_size larger than sample size. It is going to be clipped".

(** A computation that never raises [InputError] with the template [t]. *)
Definition avoids {A : Type} (t : string) (c : Utils.result A) : Prop :=
  forall args, c <> Utils.Raise (Utils.InputError t args).

(** Rows of [QtNm] are compared for equality. *)
#[local] Instance Q_eq_dec : EqDecision Q.
Proof. solve_decision. Defined.





(** ** Sanity checks on concrete inputs *)

Example PTP_hydrogen : PTP !! 1 = Some (1, 1).
Proof. vm_compute. reflexivity. Qed.

Example QtNm_boron : QtNm !! 5 = Some (2, -1, 1, (1 # 2)%Q).
Proof. vm_compute. reflexivity. Qed.

Example range_3 : range 3 = [0; 1; 2].
Proof. reflexivity. Qed.

Example eye_2 : np_eye 2 = Ok [[1; 0]; [0; 1]]%R.
Proof. reflexivity. Qed.

Example setitem2_wraps :
  setitem2 [[0; 0]; [0; 0]]%R (-1) 0 5%R = Ok [[0; 0]; [5; 0]]%R.
Proof. reflexivity. Qed.

Example gen_custom_small :
  gen_custom [(1, [1%R])] 2
  = Ok [[dot [0%R] [0%R]; dot [0%R] [1%R]]; [dot [1%R] [0%R]; dot [1%R] [1%R]]].
Proof. reflexivity. Qed.

(** ** Loops and ranges *)

Lemma bind_Ok_inv {A B : Type} (c : result A) (k : A -> result B) (b : B) :
  bind c k = Ok b -> exists a, c = Ok a /\ k a = Ok b.
Proof. destruct c as [a|e]; simpl; [eauto | discriminate]. Qed.

Lemma for_app {A S : Type} (xs ys : list A) (body : A -> S -> result S) (s : S) :
  for_ (xs ++ ys) body s = let* s' := for_ xs body s in for_ ys body s'.
Proof.
  revert s. induction xs as [|x xs IH]; intros s; simpl; [reflexivity|].
  destruct (body x s) as [s1|e]; simpl; [apply IH | reflexivity].
Qed.

Lemma for_row {S : Type} (i : Z) (cols : list Z)
    (body : Z -> Z -> S -> result S) (s : S) :
  for_ cols (fun j s => body i j s) s
  = for_ ((fun j => (i, j)) <$> cols) (fun c s => body c.1 c.2 s) s.
Proof.
  revert s. induction cols as [|j cols IH]; intros s; simpl; [reflexivity|].
  destruct (body i j s); simpl; [apply IH | reflexivity].
Qed.

Lemma for_nested {S : Type} (rows cols : list Z)
    (body : Z -> Z -> S -> result S) (s : S) :
  for_ rows (fun i s => for_ cols (fun j s => body i j s) s) s
  = for_ (cells rows cols) (fun c s => body c.1 c.2 s) s.
Proof.
  revert s. induction rows as [|i rows IH]; intros s; [reflexivity|].
  change (cells (i :: rows) cols)
    with (((fun j => (i, j)) <$> cols) ++ cells rows cols).
  rewrite for_app. simpl. rewrite (for_row i cols body s).
  destruct (for_ _ _ s) as [s1|e]; simpl; [apply IH | reflexivity].
Qed.

Lemma elem_of_cells (rows cols : list Z) (i j : Z) :
  (i, j) ∈ cells rows cols <-> i ∈ rows /\ j ∈ cols.
Proof.
  unfold cells. rewrite list_elem_of_bind. split.
  - intros (i' & Hin & Hi'). apply list_elem_of_fmap in Hin as (j' & Heq & Hj').
    inversion Heq; subst. auto.
  - intros [Hi Hj]. exists i. split; [|assumption].
    apply list_elem_of_fmap. eauto.
Qed.

Lemma elem_of_range (n k : Z) : k ∈ range n <-> 0 <= k < n.
Proof.
  unfold range. rewrite list_elem_of_fmap. split.
  - intros (m & -> & Hm). apply elem_of_seq in Hm. lia.
  - intros Hk. exists (Z.to_nat k). split; [lia|]. apply elem_of_seq. lia.
Qed.

Lemma range_split (n m : Z) :
  0 <= m < n -> exists rest, range n = range m ++ m :: rest.
Proof.
  intros Hm. unfold range.
  replace (Z.to_nat n) with (Z.to_nat m + S (Z.to_nat (n - m - 1)))%nat by lia.
  rewrite seq_app, fmap_app. simpl.
  eexists. f_equal. f_equal. lia.
Qed.

(** ** Reading and writing entries of an array of known shape *)

Lemma np_index_inrange (len : nat) (k : Z) :
  0 <= k < Z.of_nat len -> np_index len k = Ok (Z.to_nat k).
Proof. intros Hk. unfold np_index. rewrite decide_True by assumption. reflexivity. Qed.

Lemma shape_lookup (r c : nat) (M : matrix) (i : Z) :
  shape r c M -> 0 <= i < Z.of_nat r ->
  exists row, M !! Z.to_nat i = Some row /\ length row = c.
Proof.
  intros [Hlen Hrows] Hi.
  destruct (lookup_lt_is_Some_2 M (Z.to_nat i)) as [row Hrow]; [lia|].
  exists row. split; [assumption|].
  rewrite Forall_forall in Hrows. apply Hrows.
  apply list_elem_of_lookup. eauto.
Qed.

Lemma getitem2_row (M : matrix) (i j : Z) (row : list R) :
  0 <= i -> M !! Z.to_nat i = Some row -> 0 <= j < Z.of_nat (length row) ->
  getitem2 M i j
  = match row !! Z.to_nat j with Some v => Ok v | None => Raise IndexError end.
Proof.
  intros Hi Hrow Hj. unfold getitem2.
  rewrite np_index_inrange by (apply lookup_lt_Some in Hrow; lia).
  cbn [bind]. rewrite Hrow. rewrite np_index_inrange by assumption. reflexivity.
Qed.

Lemma getitem2_inrange (r c : nat) (M : matrix) (i j : Z) :
  shape r c M -> 0 <= i < Z.of_nat r -> 0 <= j < Z.of_nat c ->
  exists v, getitem2 M i j = Ok v.
Proof.
  intros HM Hi Hj. destruct (shape_lookup r c M i HM Hi) as (row & Hrow & Hlen).
  rewrite (getitem2_row M i j row) by (try assumption; lia).
  destruct (lookup_lt_is_Some_2 row (Z.to_nat j)) as [v Hv]; [lia|].
  rewrite Hv. eauto.
Qed.

Lemma setitem2_inrange (r c : nat) (M : matrix) (i j : Z) (v : R) :
  shape r c M -> 0 <= i < Z.of_nat r -> 0 <= j < Z.of_nat c ->
  exists M', setitem2 M i j v = Ok M' /\ shape r c M' /\
    forall i' j', 0 <= i' < Z.of_nat r -> 0 <= j' < Z.of_nat c ->
      getitem2 M' i' j'
      = if decide ((i', j') = (i, j)) then Ok v else getitem2 M i' j'.
Proof.
  intros HM Hi Hj. destruct (shape_lookup r c M i HM Hi) as (row & Hrow & Hlen).
  pose proof HM as [HlenM Hrows].
  unfold setitem2. rewrite np_index_inrange by lia. cbn [bind]. rewrite Hrow.
  rewrite np_index_inrange by lia. cbn [bind].
  eexists. split; [reflexivity|]. split.
  - split; [rewrite length_insert; assumption|].
    apply Forall_insert; [assumption|]. rewrite length_insert. assumption.
  - intros i' j' Hi' Hj'.
    destruct (decide (Z.to_nat i' = Z.to_nat i)) as [Heq|Hne].
    + assert (i' = i) by lia. subst i'.
      rewrite (getitem2_row _ i j' (<[Z.to_nat j := v]> row));
        [| lia | apply list_lookup_insert_eq; lia | rewrite length_insert; lia].
      rewrite (getitem2_row M i j' row) by (try assumption; lia).
      destruct (decide (Z.to_nat j' = Z.to_nat j)) as [Heqj|Hnej].
      * assert (j' = j) by lia. subst j'.
        rewrite decide_True by reflexivity.
        rewrite list_lookup_insert_eq by lia. reflexivity.
      * rewrite decide_False by (intros [=]; lia).
        rewrite list_lookup_insert_ne by (intros ?; apply Hnej; congruence).
        reflexivity.
    + rewrite decide_False by (intros [=]; lia).
      destruct (shape_lookup r c M i' HM Hi') as (row' & Hrow' & Hlen').
      rewrite (getitem2_row _ i' j' row');
        [| lia | rewrite list_lookup_insert_ne by (intros ?; apply Hne; congruence);
                 assumption | lia].
      rewrite (getitem2_row M i' j' row') by (try assumption; lia).
      reflexivity.
Qed.

Lemma np_zeros2_shape (r c : Z) (M : matrix) :
  np_zeros2 r c = Ok M -> 0 <= r /\ 0 <= c /\ shape (Z.to_nat r) (Z.to_nat c) M.
Proof.
  unfold np_zeros2. case_decide; [discriminate|]. intros [= <-].
  split; [lia|]. split; [lia|]. split.
  - apply length_replicate.
  - apply Forall_replicate. apply length_replicate.
Qed.

Lemma np_zeros2_ok (r c : Z) :
  0 <= r -> 0 <= c -> exists M, np_zeros2 r c = Ok M.
Proof.
  intros Hr Hc. unfold np_zeros2. rewrite decide_False by lia. eauto.
Qed.

(** ** The loop that fills an array entry by entry

    [gen_pd] and [gen_QNum_distances] are the same pair of loops around
    two different distance functions; the lemmas are proved once, on
    [fill]. *)

Section fill.
Variable f : Z -> Z -> result R.

Lemma store_cells_sound (r c : nat) (cs : list (Z * Z)) :
  Forall (in_bounds r c) cs ->
  forall M M', shape r c M -> for_ cs (store f) M = Ok M' ->
  shape r c M' /\
  forall i j, 0 <= i < Z.of_nat r -> 0 <= j < Z.of_nat c ->
    getitem2 M' i j = if decide ((i, j) ∈ cs) then f i j else getitem2 M i j.
Proof.
  induction 1 as [|c0 cs [Hc0i Hc0j] Hcs IH]; intros M M' HM Hrun.
  - injection Hrun as <-. split; [assumption|]. intros i j _ _.
    rewrite decide_False by apply not_elem_of_nil. reflexivity.
  - simpl in Hrun. apply bind_Ok_inv in Hrun as (M1 & Hstore & Hrest).
    apply bind_Ok_inv in Hstore as (d & Hd & Hset).
    destruct (setitem2_inrange r c M c0.1 c0.2 d HM Hc0i Hc0j)
      as (M1' & Hset' & HM1 & Hget1).
    rewrite Hset in Hset'. injection Hset' as <-.
    destruct (IH M1 M' HM1 Hrest) as [HM' Hget]. split; [assumption|].
    intros i j Hi Hj. rewrite (Hget i j Hi Hj), (Hget1 i j Hi Hj).
    destruct c0 as [i0 j0]. simpl in *.
    destruct (decide ((i, j) ∈ cs)) as [Hin|Hnin].
    + rewrite decide_True by (right; assumption). reflexivity.
    + destruct (decide ((i, j) = (i0, j0))) as [Heq|Hne].
      * rewrite decide_True by (rewrite Heq; left).
        injection Heq as -> ->. symmetry. assumption.
      * rewrite decide_False; [reflexivity|].
        intros Hin. apply elem_of_cons in Hin as [?|?]; contradiction.
Qed.

Lemma store_cells_total (r c : nat) (cs : list (Z * Z)) :
  Forall (in_bounds r c) cs ->
  Forall (fun ij => exists d, f ij.1 ij.2 = Ok d) cs ->
  forall M, shape r c M ->
  exists M', for_ cs (store f) M = Ok M' /\ shape r c M'.
Proof.
  induction 1 as [|c0 cs [Hc0i Hc0j] Hcs IH]; intros Hf M HM.
  - exists M. split; [reflexivity | assumption].
  - apply Forall_cons in Hf as [[d Hd] Hf].
    destruct (setitem2_inrange r c M c0.1 c0.2 d HM Hc0i Hc0j)
      as (M1 & Hset & HM1 & _).
    destruct (IH Hf M1 HM1) as (M' & Hrun & HM').
    exists M'. split; [|assumption].
    simpl. unfold store at 1. rewrite Hd. cbn [bind]. rewrite Hset. exact Hrun.
Qed.

Lemma store_cells_fails (r c : nat) (cs rest : list (Z * Z)) (c0 : Z * Z)
    (e : exn) (M : matrix) :
  Forall (in_bounds r c) cs ->
  Forall (fun ij => exists d, f ij.1 ij.2 = Ok d) cs ->
  shape r c M -> f c0.1 c0.2 = Raise e ->
  for_ (cs ++ c0 :: rest) (store f) M = Raise e.
Proof.
  intros Hcs Hf HM He.
  destruct (store_cells_total r c cs Hcs Hf M HM) as (M' & Hrun & _).
  rewrite for_app, Hrun. simpl. unfold store at 1. rewrite He. reflexivity.
Qed.

Lemma fill_cells (emax : Z) :
  fill f emax
  = let* pd := np_zeros2 emax emax in
    for_ (cells (range emax) (range emax)) (store f) pd.
Proof.
  unfold fill. destruct (np_zeros2 emax emax) as [pd|e]; [|reflexivity].
  cbn [bind].
  exact (for_nested (range emax) (range emax)
           (fun i j pd => let* d := f i j in setitem2 pd i j d) pd).
Qed.

Lemma cells_in_bounds (emax : Z) :
  Forall (in_bounds (Z.to_nat emax) (Z.to_nat emax))
    (cells (range emax) (range emax)).
Proof.
  apply Forall_forall. intros [i j] Hin.
  apply elem_of_cells in Hin as [Hi Hj].
  apply elem_of_range in Hi, Hj. unfold in_bounds. simpl. lia.
Qed.

Lemma fill_sound (emax : Z) (M : matrix) :
  fill f emax = Ok M ->
  0 <= emax /\ shape (Z.to_nat emax) (Z.to_nat emax) M /\
  forall i j, 0 <= i < emax -> 0 <= j < emax -> getitem2 M i j = f i j.
Proof.
  rewrite fill_cells. intros Hrun.
  apply bind_Ok_inv in Hrun as (pd & Hpd & Hrun).
  apply np_zeros2_shape in Hpd as (Hemax & _ & Hshape).
  destruct (store_cells_sound _ _ _ (cells_in_bounds emax) pd M Hshape Hrun)
    as [HM Hget].
  split; [assumption|]. split; [assumption|].
  intros i j Hi Hj. rewrite Hget by lia.
  rewrite decide_True; [reflexivity|].
  apply elem_of_cells. split; apply elem_of_range; assumption.
Qed.

Lemma fill_total (emax : Z) :
  0 <= emax ->
  (forall i j, 0 <= i < emax -> 0 <= j < emax -> exists d, f i j = Ok d) ->
  exists M, fill f emax = Ok M.
Proof.
  intros Hemax Hf. rewrite fill_cells.
  destruct (np_zeros2_ok emax emax Hemax Hemax) as [pd Hpd].
  rewrite Hpd. cbn [bind].
  apply np_zeros2_shape in Hpd as (_ & _ & Hshape).
  destruct (store_cells_total _ _ _ (cells_in_bounds emax)) with (M := pd)
    as (M & Hrun & _); [|assumption|eauto].
  apply Forall_forall. intros [i j] Hin.
  apply elem_of_cells in Hin as [Hi Hj]. apply elem_of_range in Hi, Hj.
  apply Hf; assumption.
Qed.

(** The first row is filled from the left, so the first column whose
    entry cannot be computed decides the exception. *)
Lemma fill_fails_in_first_row (emax j : Z) (e : exn) :
  0 <= j < emax ->
  (forall j', 0 <= j' < j -> exists d, f 0 j' = Ok d) ->
  f 0 j = Raise e ->
  fill f emax = Raise e.
Proof.
  intros Hj Hbefore He. rewrite fill_cells.
  destruct (np_zeros2_ok emax emax) as [pd Hpd]; [lia..|].
  rewrite Hpd. cbn [bind].
  apply np_zeros2_shape in Hpd as (_ & _ & Hshape).
  destruct (range_split emax 0) as [rows Hrows]; [lia|].
  destruct (range_split emax j Hj) as [cols Hcols].
  rewrite Hrows at 1. change (range 0 ++ 0 :: rows) with (0 :: rows).
  change (cells (0 :: rows) (range emax))
    with (((fun j => (0, j)) <$> range emax) ++ cells rows (range emax)).
  rewrite Hcols at 1. rewrite fmap_app, fmap_cons, <- !app_assoc.
  rewrite <- app_comm_cons.
  apply (store_cells_fails (Z.to_nat emax) (Z.to_nat emax)); try assumption.
  - apply Forall_forall. intros [i' j'] Hin.
    apply list_elem_of_fmap in Hin as (j0 & [= -> ->] & Hj0).
    apply elem_of_range in Hj0. unfold in_bounds. simpl. lia.
  - apply Forall_forall. intros [i' j'] Hin.
    apply list_elem_of_fmap in Hin as (j0 & [= -> ->] & Hj0).
    apply elem_of_range in Hj0. simpl. apply Hbefore. assumption.
Qed.
End fill.

(** ** The lookup tables cover the atomic numbers 1 to 118 *)

Lemma elem_of_atomic_numbers (k : Z) : k ∈ atomic_numbers <-> 1 <= k <= 118.
Proof.
  unfold atomic_numbers. rewrite list_elem_of_fmap. split.
  - intros (m & -> & Hm). apply elem_of_seq in Hm. lia.
  - intros Hk. exists (Z.to_nat k). split; [lia|]. apply elem_of_seq. lia.
Qed.

Section tables.
Context {V : Type} (d : gmap Z V).

Lemma table_covers :
  forallb (fun k => bool_decide (is_Some (d !! k))) atomic_numbers = true ->
  forall k, 1 <= k <= 118 -> exists v, d !! k = Some v.
Proof.
  intros Hall k Hk. rewrite forallb_forall in Hall.
  apply elem_of_atomic_numbers, list_elem_of_In, Hall in Hk.
  apply bool_decide_eq_true in Hk as [v Hv]. eauto.
Qed.

End tables.

Lemma PTP_covers (k : Z) : 1 <= k <= 118 -> exists p, PTP !! k = Some p.
Proof. apply table_covers. vm_compute. reflexivity. Qed.


Lemma QtNm_covers (k : Z) : 1 <= k <= 118 -> exists q, QtNm !! k = Some q.
Proof. apply table_covers. vm_compute. reflexivity. Qed.


(** ** The two distance functions *)

Lemma py_div_ok (x y : R) : y <> 0%R -> py_div x y = Ok (x / y)%R.
Proof. intros Hy. unfold py_div. destruct (Req_dec_T y 0); [contradiction | reflexivity]. Qed.

Lemma py_div_Ok_inv (x y z : R) : py_div x y = Ok z -> y <> 0%R /\ z = (x / y)%R.
Proof. unfold py_div. destruct (Req_dec_T y 0); [discriminate|]. intros [= <-]. auto. Qed.

Lemma four_sq_nonzero (w : R) : w <> 0%R -> (4 * w ^ 2)%R <> 0%R.
Proof. intros Hw. apply Rmult_integral_contrapositive_currified; [lra|]. apply pow_nonzero, Hw. Qed.


Lemma getitem_Some {V : Type} (d : gmap Z V) (k : Z) (v : V) :
  d !! k = Some v -> getitem d k = Ok v.
Proof. intros H. unfold getitem. rewrite H. reflexivity. Qed.


Lemma getitem_Ok_inv {V : Type} (d : gmap Z V) (k : Z) (v : V) :
  getitem d k = Ok v -> d !! k = Some v.
Proof. unfold getitem. destruct (d !! k); [congruence | discriminate]. Qed.

Lemma periodic_distance_ok (a b : Z) (pa pb : Z * Z) (r_width c_width : R) :
  PTP !! a = Some pa -> PTP !! b = Some pb ->
  r_width <> 0%R -> c_width <> 0%R ->
  periodic_distance a b r_width c_width
  = Ok (periodic_similarity pa pb r_width c_width).
Proof.
  intros Ha Hb Hr Hc. unfold periodic_distance, subscript.
  rewrite (getitem_Some _ _ _ Ha), (getitem_Some _ _ _ Hb). cbn [bind].
  rewrite !py_div_ok by (apply four_sq_nonzero; assumption). reflexivity.
Qed.

Lemma periodic_distance_Ok_inv (a b : Z) (r_width c_width x : R) :
  periodic_distance a b r_width c_width = Ok x ->
  exists pa pb, PTP !! a = Some pa /\ PTP !! b = Some pb /\
    (4 * r_width ^ 2)%R <> 0%R /\ (4 * c_width ^ 2)%R <> 0%R /\
    x = periodic_similarity pa pb r_width c_width.
Proof.
  unfold periodic_distance, subscript. intros H.
  destruct (getitem PTP a) as [pa|] eqn:Ha; [|discriminate].
  destruct (getitem PTP b) as [pb|] eqn:Hb; [|discriminate].
  cbn [bind] in H.
  apply bind_Ok_inv in H as (tr & Htr & H). apply py_div_Ok_inv in Htr as [Hr ->].
  apply bind_Ok_inv in H as (tc & Htc & H). apply py_div_Ok_inv in Htc as [Hc ->].
  injection H as <-. apply getitem_Ok_inv in Ha, Hb.
  exists pa, pb. repeat split; assumption.
Qed.


Lemma QNum_distance_ok (a b : Z) (qa qb : Z * Z * Z * Q)
    (n_width m_width l_width s_width : R) :
  QtNm !! a = Some qa -> QtNm !! b = Some qb ->
  n_width <> 0%R -> m_width <> 0%R -> l_width <> 0%R -> s_width <> 0%R ->
  QNum_distance a b n_width m_width l_width s_width
  = Ok (QNum_similarity qa qb n_width m_width l_width s_width).
Proof.
  intros Ha Hb Hn Hm Hl Hs. unfold QNum_distance, subscript.
  rewrite (getitem_Some _ _ _ Ha), (getitem_Some _ _ _ Hb). cbn [bind].
  rewrite !py_div_ok by (apply four_sq_nonzero; assumption). reflexivity.
Qed.

Lemma QNum_distance_Ok_inv (a b : Z) (n_width m_width l_width s_width x : R) :
  QNum_distance a b n_width m_width l_width s_width = Ok x ->
  exists qa qb, QtNm !! a = Some qa /\ QtNm !! b = Some qb /\
    (4 * n_width ^ 2)%R <> 0%R /\ (4 * m_width ^ 2)%R <> 0%R /\
    (4 * l_width ^ 2)%R <> 0%R /\ (4 * s_width ^ 2)%R <> 0%R /\
    x = QNum_similarity qa qb n_width m_width l_width s_width.
Proof.
  unfold QNum_distance, subscript. intros H.
  destruct (getitem QtNm a) as [qa|] eqn:Ha; [|discriminate].
  destruct (getitem QtNm b) as [qb|] eqn:Hb; [|discriminate].
  cbn [bind] in H.
  apply bind_Ok_inv in H as (tn & Htn & H). apply py_div_Ok_inv in Htn as [Hn ->].
  apply bind_Ok_inv in H as (tm & Htm & H). apply py_div_Ok_inv in Htm as [Hm ->].
  apply bind_Ok_inv in H as (tl & Htl & H). apply py_div_Ok_inv in Htl as [Hl ->].
  apply bind_Ok_inv in H as (ts & Hts & H). apply py_div_Ok_inv in Hts as [Hs ->].
  injection H as <-. apply getitem_Ok_inv in Ha, Hb.
  exists qa, qb. repeat split; assumption.
Qed.


(** Both similarities are symmetric, equal one on equal rows and never
    above one. *)






Lemma periodic_similarity_self (p : Z * Z) (r_width c_width : R) :
  periodic_similarity p p r_width c_width = 1%R.
Proof.
  unfold periodic_similarity. rewrite !Z.sub_diag.
  replace (- 0 ^ 2 / (4 * r_width ^ 2) - 0 ^ 2 / (4 * c_width ^ 2))%R with 0%R
    by (unfold Rdiv; ring).
  apply exp_0.
Qed.


Lemma QNum_similarity_self (q : Z * Z * Z * Q) (n_width m_width l_width s_width : R) :
  QNum_similarity q q n_width m_width l_width s_width = 1%R.
Proof.
  unfold QNum_similarity. rewrite !Z.sub_diag.
  match goal with |- exp ?e = _ => replace e with 0%R by (unfold Rdiv; ring) end.
  apply exp_0.
Qed.


(** ** The table-based generators *)

Lemma gen_pd_fill (emax : Z) (r_width c_width : R) :
  gen_pd emax r_width c_width
  = fill (fun i j => periodic_distance (i + 1) (j + 1) r_width c_width) emax.
Proof. reflexivity. Qed.

Lemma gen_QNum_distances_fill (emax : Z) (n_width m_width l_width s_width : R) :
  gen_QNum_distances emax n_width m_width l_width s_width
  = fill (fun i j => QNum_distance (i + 1) (j + 1) n_width m_width l_width s_width)
      emax.
Proof. reflexivity. Qed.

Lemma gen_pd_sound (emax : Z) (r_width c_width : R) (M : matrix) :
  gen_pd emax r_width c_width = Ok M ->
  0 <= emax /\ shape (Z.to_nat emax) (Z.to_nat emax) M /\
  forall i j, 0 <= i < emax -> 0 <= j < emax ->
    getitem2 M i j = periodic_distance (i + 1) (j + 1) r_width c_width.
Proof. rewrite gen_pd_fill. apply fill_sound. Qed.

Lemma gen_QNum_distances_sound (emax : Z) (n_width m_width l_width s_width : R)
    (M : matrix) :
  gen_QNum_distances emax n_width m_width l_width s_width = Ok M ->
  0 <= emax /\ shape (Z.to_nat emax) (Z.to_nat emax) M /\
  forall i j, 0 <= i < emax -> 0 <= j < emax ->
    getitem2 M i j
    = QNum_distance (i + 1) (j + 1) n_width m_width l_width s_width.
Proof. rewrite gen_QNum_distances_fill. apply fill_sound. Qed.

(** In the number model the arithmetic of an entry returns exactly when no
    bandwidth is zero; the two lemmas below are facts of that model, and the
    statements about the code go through [periodic_arithmetic_returns] and
    [QNum_arithmetic_returns] instead of a condition on the widths. *)
Lemma gen_pd_total (emax : Z) (r_width c_width : R) :
  0 <= emax <= 118 -> r_width <> 0%R -> c_width <> 0%R ->
  exists M, gen_pd emax r_width c_width = Ok M.
Proof.
  intros Hemax Hr Hc. rewrite gen_pd_fill. apply fill_total; [lia|].
  intros i j Hi Hj.
  destruct (PTP_covers (i + 1)) as [pa Ha]; [lia|].
  destruct (PTP_covers (j + 1)) as [pb Hb]; [lia|].
  rewrite (periodic_distance_ok _ _ pa pb) by assumption. eauto.
Qed.

Lemma gen_QNum_distances_total (emax : Z) (n_width m_width l_width s_width : R) :
  0 <= emax <= 118 ->
  n_width <> 0%R -> m_width <> 0%R -> l_width <> 0%R -> s_width <> 0%R ->
  exists M, gen_QNum_distances emax n_width m_width l_width s_width = Ok M.
Proof.
  intros Hemax Hn Hm Hl Hs. rewrite gen_QNum_distances_fill.
  apply fill_total; [lia|]. intros i j Hi Hj.
  destruct (QtNm_covers (i + 1)) as [qa Ha]; [lia|].
  destruct (QtNm_covers (j + 1)) as [qb Hb]; [lia|].
  rewrite (QNum_distance_ok _ _ qa qb) by assumption. eauto.
Qed.




(** ** The identity matrix and the Gram matrix *)

Lemma range_lookup (n i : Z) : 0 <= i < n -> range n !! Z.to_nat i = Some i.
Proof.
  intros Hi. unfold range. rewrite list_lookup_fmap, lookup_seq_lt by lia.
  simpl. f_equal. lia.
Qed.

Lemma length_range (n : Z) : length (range n) = Z.to_nat n.
Proof. unfold range. rewrite length_fmap. apply length_seq. Qed.

Lemma getitem2_tabulate (g : Z -> Z -> R) (n i j : Z) :
  0 <= i < n -> 0 <= j < n ->
  getitem2 ((fun i => (fun j => g i j) <$> range n) <$> range n) i j = Ok (g i j).
Proof.
  intros Hi Hj.
  rewrite (getitem2_row _ i j ((fun j => g i j) <$> range n)).
  - rewrite list_lookup_fmap, range_lookup by assumption. reflexivity.
  - lia.
  - rewrite list_lookup_fmap, range_lookup by assumption. reflexivity.
  - rewrite length_fmap, length_range. lia.
Qed.

Lemma shape_tabulate (g : Z -> Z -> R) (n : Z) :
  shape (Z.to_nat n) (Z.to_nat n)
    ((fun i => (fun j => g i j) <$> range n) <$> range n).
Proof.
  split.
  - rewrite length_fmap. apply length_range.
  - apply Forall_fmap, Forall_forall. intros i _. simpl.
    rewrite length_fmap. apply length_range.
Qed.

(** Two arrays of one shape with the same entries are the same array. *)
Lemma matrix_ext (r c : nat) (A B : matrix) :
  shape r c A -> shape r c B ->
  (forall i j, 0 <= i < Z.of_nat r -> 0 <= j < Z.of_nat c ->
     getitem2 A i j = getitem2 B i j) ->
  A = B.
Proof.
  intros HA HB Hent. apply list_eq_same_length with r; try apply HA; try apply HB.
  intros i rowA rowB Hi HrowA HrowB.
  destruct (shape_lookup r c A (Z.of_nat i) HA) as (rA & HrA & HlenA); [lia|].
  destruct (shape_lookup r c B (Z.of_nat i) HB) as (rB & HrB & HlenB); [lia|].
  rewrite Nat2Z.id in HrA, HrB.
  assert (rA = rowA) by congruence. assert (rB = rowB) by congruence. subst rA rB.
  apply list_eq_same_length with c; try assumption.
  intros j x y Hj Hx Hy.
  specialize (Hent (Z.of_nat i) (Z.of_nat j)).
  rewrite (getitem2_row A _ _ rowA), (getitem2_row B _ _ rowB) in Hent;
    rewrite ?Nat2Z.id; try assumption; try lia.
  rewrite Nat2Z.id, Hx, Hy in Hent.
  assert (Ok x = Ok y) as [= ->] by (apply Hent; lia). reflexivity.
Qed.


Lemma getitem2_np_dot_T (a b : matrix) (i j : Z) (u v : list R) :
  0 <= i -> 0 <= j ->
  a !! Z.to_nat i = Some u -> b !! Z.to_nat j = Some v ->
  getitem2 (np_dot_T a b) i j = Ok (dot u v).
Proof.
  intros Hi Hj Hu Hv. unfold np_dot_T.
  rewrite (getitem2_row _ i j (dot u <$> b)).
  - rewrite list_lookup_fmap, Hv. reflexivity.
  - assumption.
  - rewrite list_lookup_fmap, Hu. reflexivity.
  - rewrite length_fmap. apply lookup_lt_Some in Hv. lia.
Qed.

(** ** The custom generator *)

Lemma num_dims_loop (e_vec : list (Z * list R)) (acc : list nat) :
  for_ e_vec (fun kv num_dims =>
    let* _ := py_assert (isinstance_int kv.1) "Error! Keys need to be int" in
    Ok (num_dims ++ [length kv.2])) acc
  = Ok (acc ++ ((fun kv => length kv.2) <$> e_vec)).
Proof.
  revert acc. induction e_vec as [|kv e_vec IH]; intros acc; simpl.
  - rewrite app_nil_r. reflexivity.
  - rewrite IH, <- app_assoc. reflexivity.
Qed.

Lemma check_if_unique_nil : check_if_unique [] = false.
Proof. reflexivity. Qed.

Lemma check_if_unique_cons (d : nat) (l : list nat) :
  check_if_unique (d :: l) = true <-> Forall (fun x => x = d) l.
Proof.
  unfold check_if_unique. rewrite bool_decide_eq_true. split.
  - intros Hsize. apply size_1_elem_of in Hsize as [x Hx].
    assert (Hmem : forall y, y ∈ d :: l -> y = x).
    { intros y Hy.
      assert (Hin : y ∈ (list_to_set (d :: l) : gset nat))
        by (apply elem_of_list_to_set, Hy).
      rewrite Hx in Hin. apply elem_of_singleton in Hin. exact Hin. }
    apply Forall_forall. intros y Hy.
    rewrite (Hmem y) by (right; exact Hy). symmetry. apply Hmem. left.
  - intros Hall.
    assert (Heq : (list_to_set (d :: l) : gset nat) = {[d]}).
    { apply set_eq. intros y. rewrite elem_of_list_to_set, elem_of_singleton.
      rewrite Forall_forall in Hall. split.
      - intros [->|Hy]%elem_of_cons; [reflexivity | apply Hall, Hy].
      - intros ->. left. }
    rewrite Heq. apply size_singleton.
Qed.

Lemma np_index_Ok_inv (len : nat) (k : Z) (n : nat) :
  np_index len k = Ok n -> (n < len)%nat /\ - Z.of_nat len <= k < Z.of_nat len.
Proof.
  unfold np_index. repeat case_decide; intros [= <-]; lia.
Qed.

Lemma np_index_ok (len : nat) (k : Z) :
  - Z.of_nat len <= k < Z.of_nat len -> exists n, np_index len k = Ok n /\ (n < len)%nat.
Proof.
  intros Hk. unfold np_index. repeat case_decide; try lia; eexists; split; try reflexivity; lia.
Qed.

Lemma np_index_exn (len : nat) (k : Z) (e : exn) :
  np_index len k = Raise e -> e = IndexError.
Proof. unfold np_index. repeat case_decide; congruence. Qed.

Lemma setrow_length (tmp tmp' : matrix) (k : Z) (v : list R) :
  setrow tmp k v = Ok tmp' -> length tmp' = length tmp.
Proof.
  unfold setrow. intros H. apply bind_Ok_inv in H as (k' & _ & H).
  destruct (tmp !! k') as [row|]; [|discriminate].
  case_decide; [injection H as <-; apply length_insert|].
  destruct v as [|x [|? ?]]; try discriminate.
  injection H as <-. apply length_insert.
Qed.

Lemma setrow_exn (tmp : matrix) (k : Z) (v : list R) (e : exn) :
  setrow tmp k v = Raise e -> e = IndexError \/ e = ValueError.
Proof.
  unfold setrow. destruct (np_index (length tmp) k) as [k'|e'] eqn:Hk; cbn [bind].
  - destruct (tmp !! k') as [row|]; [|intros [= <-]; auto].
    case_decide; [discriminate|].
    destruct v as [|x [|? ?]]; try discriminate; intros [= <-]; auto.
  - intros [= <-]. left. eapply np_index_exn, Hk.
Qed.

Lemma setrow_ok (r c : nat) (tmp : matrix) (k : Z) (v : list R) :
  shape r c tmp -> - Z.of_nat r <= k < Z.of_nat r -> length v = c ->
  exists tmp', setrow tmp k v = Ok tmp' /\ shape r c tmp'.
Proof.
  intros [Hlen Hrows] Hk Hv. unfold setrow. rewrite Hlen.
  destruct (np_index_ok r k Hk) as (k' & -> & Hk'). cbn [bind].
  destruct (lookup_lt_is_Some_2 tmp k') as [row Hrow]; [lia|]. rewrite Hrow.
  assert (length row = c).
  { rewrite Forall_forall in Hrows. apply Hrows, list_elem_of_lookup. eauto. }
  rewrite decide_True by congruence.
  eexists. split; [reflexivity|]. split.
  - rewrite length_insert. assumption.
  - apply Forall_insert; assumption.
Qed.

Lemma assign_rows_cons (k : Z) (v : list R) (e_vec : list (Z * list R)) (tmp : matrix) :
  assign_rows ((k, v) :: e_vec) tmp
  = let* tmp1 := setrow tmp k v in assign_rows e_vec tmp1.
Proof. reflexivity. Qed.

Lemma assign_rows_length (e_vec : list (Z * list R)) (tmp tmp' : matrix) :
  assign_rows e_vec tmp = Ok tmp' -> length tmp' = length tmp.
Proof.
  revert tmp. induction e_vec as [|[k v] e_vec IH]; intros tmp.
  - intros [= <-]. reflexivity.
  - rewrite assign_rows_cons. intros H.
    apply bind_Ok_inv in H as (tmp1 & H1 & H).
    apply IH in H. apply setrow_length in H1. congruence.
Qed.

Lemma assign_rows_exn (e_vec : list (Z * list R)) (tmp : matrix) (e : exn) :
  assign_rows e_vec tmp = Raise e -> e = IndexError \/ e = ValueError.
Proof.
  revert tmp. induction e_vec as [|[k v] e_vec IH]; intros tmp; [discriminate|].
  rewrite assign_rows_cons.
  destruct (setrow tmp k v) as [tmp1|e1] eqn:H1; cbn [bind].
  - apply IH.
  - intros [= <-]. eapply setrow_exn, H1.
Qed.

Lemma assign_rows_ok (r c : nat) (e_vec : list (Z * list R)) (tmp : matrix) :
  shape r c tmp ->
  Forall (fun kv => - Z.of_nat r <= kv.1 < Z.of_nat r /\ length kv.2 = c) e_vec ->
  exists tmp', assign_rows e_vec tmp = Ok tmp' /\ shape r c tmp'.
Proof.
  intros Htmp Hall. revert tmp Htmp.
  induction Hall as [|[k v] e_vec [Hk Hv] _ IH]; intros tmp Htmp.
  - exists tmp. split; [reflexivity | assumption].
  - rewrite assign_rows_cons.
    destruct (setrow_ok r c tmp k v Htmp Hk Hv) as (tmp1 & -> & Htmp1).
    cbn [bind]. apply IH, Htmp1.
Qed.

(** [gen_custom] after its first loop. *)
Lemma gen_custom_unfold (e_vec : list (Z * list R)) (emax : Z) :
  gen_custom e_vec emax
  = let num_dims := (fun kv => length kv.2) <$> e_vec in
    let* _ := py_assert (check_if_unique num_dims)
                "Error! Unequal number of dimensions" in
    let* d := match num_dims with d :: _ => Ok d | [] => Raise IndexError end in
    let* tmp := np_zeros2 emax (Z.of_nat d) in
    let* tmp := assign_rows e_vec tmp in
    Ok (np_dot_T tmp tmp).
Proof. unfold gen_custom. rewrite num_dims_loop. reflexivity. Qed.

Lemma gen_custom_sound (e_vec : list (Z * list R)) (emax : Z) (M : matrix) :
  gen_custom e_vec emax = Ok M ->
  0 <= emax /\ exists tmp, length tmp = Z.to_nat emax /\ M = np_dot_T tmp tmp.
Proof.
  rewrite gen_custom_unfold. cbn zeta. intros H.
  apply bind_Ok_inv in H as (_ & _ & H).
  apply bind_Ok_inv in H as (d & _ & H).
  apply bind_Ok_inv in H as (tmp0 & H0 & H).
  apply bind_Ok_inv in H as (tmp & Hrows & H).
  injection H as <-.
  apply np_zeros2_shape in H0 as (Hemax & _ & [Hlen _]).
  apply assign_rows_length in Hrows.
  split; [assumption|]. exists tmp. split; [congruence | reflexivity].
Qed.


Lemma gen_custom_nil (emax : Z) : gen_custom [] emax = Raise unequal_dimensions.
Proof. reflexivity. Qed.

Lemma gen_custom_unequal (e_vec : list (Z * list R)) (emax : Z) (kv1 kv2 : Z * list R) :
  kv1 ∈ e_vec -> kv2 ∈ e_vec -> length kv1.2 <> length kv2.2 ->
  gen_custom e_vec emax = Raise unequal_dimensions.
Proof.
  intros H1 H2 Hne. rewrite gen_custom_unfold. cbn zeta.
  destruct (check_if_unique ((fun kv => length kv.2) <$> e_vec)) eqn:Hu;
    [|reflexivity].
  exfalso. destruct e_vec as [|kv0 e_vec]; [inversion H1|].
  rewrite fmap_cons in Hu. apply check_if_unique_cons in Hu.
  rewrite Forall_fmap, Forall_forall in Hu.
  assert (Hall : forall kv, kv ∈ kv0 :: e_vec -> length kv.2 = length kv0.2).
  { intros kv [->|Hin]%elem_of_cons; [reflexivity | apply Hu, Hin]. }
  apply Hne. rewrite (Hall kv1 H1), (Hall kv2 H2). reflexivity.
Qed.

Lemma gen_custom_equal (e_vec : list (Z * list R)) (emax : Z) (d : nat) :
  e_vec <> [] -> Forall (fun kv => length kv.2 = d) e_vec ->
  forall msg, gen_custom e_vec emax <> Raise (AssertionError msg).
Proof.
  intros Hne Hd msg. rewrite gen_custom_unfold. cbn zeta.
  destruct e_vec as [|[k v] e_vec]; [contradiction|].
  rewrite fmap_cons. cbn [snd].
  assert (Hu : check_if_unique (length v :: ((fun kv => length kv.2) <$> e_vec)) = true).
  { apply check_if_unique_cons, Forall_fmap.
    apply Forall_cons in Hd as [Hv Hd]. simpl in Hv.
    eapply Forall_impl; [exact Hd|]. intros kv Hkv. simpl. congruence. }
  rewrite Hu. cbn [py_assert bind].
  unfold np_zeros2. case_decide; [discriminate|]. cbn [bind].
  destruct (assign_rows _ _) as [tmp|e] eqn:Hrows; cbn [bind]; [discriminate|].
  apply assign_rows_exn in Hrows as [-> | ->]; discriminate.
Qed.

Lemma setrow_inrange (r c : nat) (tmp : matrix) (k : Z) (v : list R) :
  shape r c tmp -> 0 <= k < Z.of_nat r -> length v = c ->
  setrow tmp k v = Ok (<[Z.to_nat k := v]> tmp).
Proof.
  intros [Hlen Hrows] Hk Hv. unfold setrow.
  rewrite np_index_inrange by lia. cbn [bind].
  destruct (lookup_lt_is_Some_2 tmp (Z.to_nat k)) as [row Hrow]; [lia|].
  rewrite Hrow.
  assert (length row = c).
  { rewrite Forall_forall in Hrows. apply Hrows, list_elem_of_lookup. eauto. }
  rewrite decide_True by congruence. reflexivity.
Qed.

Lemma assign_rows_lookup (r c : nat) (e_vec : list (Z * list R)) :
  NoDup e_vec.*1 ->
  Forall (fun kv => 0 <= kv.1 < Z.of_nat r /\ length kv.2 = c) e_vec ->
  forall tmp tmp', shape r c tmp -> assign_rows e_vec tmp = Ok tmp' ->
  forall i, 0 <= i < Z.of_nat r ->
    tmp' !! Z.to_nat i
    = match (list_to_map e_vec : gmap Z (list R)) !! i with
      | Some v => Some v
      | None => tmp !! Z.to_nat i
      end.
Proof.
  intros Hnodup Hall. induction Hall as [|[k v] e_vec [Hk Hv] Hall IH];
    intros tmp tmp' Htmp Hrun i Hi.
  - injection Hrun as <-. reflexivity.
  - rewrite assign_rows_cons in Hrun. simpl in Hk, Hv.
    rewrite (setrow_inrange r c) in Hrun by assumption. cbn [bind] in Hrun.
    rewrite fmap_cons in Hnodup. apply NoDup_cons in Hnodup as [Hfresh Hnodup].
    assert (Htmp1 : shape r c (<[Z.to_nat k := v]> tmp)).
    { destruct Htmp as [Hlen Hrows]. split.
      - rewrite length_insert. assumption.
      - apply Forall_insert; assumption. }
    rewrite (IH Hnodup _ _ Htmp1 Hrun i Hi).
    change (list_to_map ((k, v) :: e_vec) : gmap Z (list R))
      with (<[k := v]> (list_to_map e_vec : gmap Z (list R))).
    destruct (decide (k = i)) as [->|Hne].
    + rewrite lookup_insert_eq.
      rewrite (not_elem_of_list_to_map_1 _ _ Hfresh).
      apply list_lookup_insert_eq. destruct Htmp as [Hlen _]. lia.
    + rewrite lookup_insert_ne by assumption.
      destruct (list_to_map e_vec !! i); [reflexivity|].
      apply list_lookup_insert_ne. lia.
Qed.

(** With distinct non-negative keys, key [k] fills row [k], so entry
    [(i, j)] is the dot product of the vectors held under keys [i] and
    [j]. *)
Lemma gen_custom_entries (e_vec : list (Z * list R)) (emax : Z) (d : nat) :
  e_vec <> [] -> NoDup e_vec.*1 ->
  Forall (fun kv => 0 <= kv.1 < emax /\ length kv.2 = d) e_vec ->
  exists M, gen_custom e_vec emax = Ok M /\
    forall i j, 0 <= i < emax -> 0 <= j < emax ->
      getitem2 M i j
      = Ok (dot (supplied_vector e_vec d i) (supplied_vector e_vec d j)).
Proof.
  intros Hne Hnodup Hall. rewrite gen_custom_unfold. cbn zeta.
  destruct e_vec as [|[k v] e_vec]; [contradiction|]. clear Hne.
  assert (Hv : length v = d) by (inversion Hall as [|? ? [_ ?]]; assumption).
  assert (Hemax : 0 < emax) by (inversion Hall as [|? ? [? _]]; simpl in *; lia).
  rewrite fmap_cons. cbn [snd].
  assert (Hu : check_if_unique (length v :: ((fun kv => length kv.2) <$> e_vec)) = true).
  { apply check_if_unique_cons, Forall_fmap.
    apply Forall_cons in Hall as [_ Hall].
    eapply Forall_impl; [exact Hall|]. intros kv [_ Hkv]. simpl. congruence. }
  rewrite Hu. cbn [py_assert bind]. rewrite Hv.
  destruct (np_zeros2_ok emax (Z.of_nat d)) as [tmp0 H0]; [lia..|].
  rewrite H0. cbn [bind].
  pose proof H0 as (_ & _ & Hshape)%np_zeros2_shape. rewrite Nat2Z.id in Hshape.
  assert (Hall' : Forall (fun kv => 0 <= kv.1 < Z.of_nat (Z.to_nat emax)
                                    /\ length kv.2 = d) ((k, v) :: e_vec)).
  { eapply Forall_impl; [exact Hall|]. intros kv [? ?]. split; [lia | assumption]. }
  destruct (assign_rows_ok (Z.to_nat emax) d ((k, v) :: e_vec) tmp0 Hshape)
    as (tmp & Hrun & Htmp).
  { eapply Forall_impl; [exact Hall'|]. intros kv [? ?]. split; [lia | assumption]. }
  rewrite Hrun. cbn [bind]. eexists. split; [reflexivity|].
  assert (Hrow : forall i, 0 <= i < emax ->
            tmp !! Z.to_nat i = Some (supplied_vector ((k, v) :: e_vec) d i)).
  { intros i Hi.
    rewrite (assign_rows_lookup _ _ _ Hnodup Hall' tmp0 tmp Hshape Hrun i) by lia.
    unfold supplied_vector.
    destruct (list_to_map ((k, v) :: e_vec) !! i); [reflexivity|]. simpl.
    unfold np_zeros2 in H0. case_decide; [discriminate|]. injection H0 as <-.
    rewrite Nat2Z.id. apply lookup_replicate_2. lia. }
  intros i j Hi Hj.
  apply getitem2_np_dot_T; try lia; apply Hrow; assumption.
Qed.

(** ** Symmetry of every matrix a generator returns *)

Lemma np_eye_entries (n : Z) (M : matrix) :
  np_eye n = Ok M ->
  0 <= n /\ shape (Z.to_nat n) (Z.to_nat n) M /\
  forall i j, 0 <= i < n -> 0 <= j < n ->
    getitem2 M i j = Ok (if decide (i = j) then 1%R else 0%R).
Proof.
  unfold np_eye. case_decide; [discriminate|]. intros [= <-].
  split; [lia|]. split.
  - apply (shape_tabulate (fun i j => if decide (i = j) then 1%R else 0%R)).
  - intros i j Hi Hj.
    apply (getitem2_tabulate (fun i j => if decide (i = j) then 1%R else 0%R));
      assumption.
Qed.







(** ** Which calls of the table-based generators return, and which
    exceptions the others raise *)

















Lemma py_div_zero (x w : R) : w = 0%R -> py_div x (4 * w ^ 2) = Raise ZeroDivisionError.
Proof.
  intros ->. unfold py_div.
  destruct (Req_dec_T (4 * 0 ^ 2) 0) as [_|Hne]; [reflexivity|].
  exfalso. apply Hne. ring.
Qed.

(** The first width is the first one the arithmetic touches. *)
Lemma gen_pd_zero_r_width (emax : Z) (c_width : R) :
  1 <= emax -> gen_pd emax 0 c_width = Raise ZeroDivisionError.
Proof.
  intros Hemax. rewrite gen_pd_fill.
  apply (fill_fails_in_first_row _ emax 0); [lia | lia |].
  destruct (PTP_covers 1) as [p Hp]; [lia|].
  unfold periodic_distance, subscript.
  change (0 + 1) with 1. rewrite (getitem_Some _ _ _ Hp). cbn [bind].
  rewrite py_div_zero by reflexivity. reflexivity.
Qed.

Lemma gen_QNum_distances_zero_n_width (emax : Z) (m_width l_width s_width : R) :
  1 <= emax ->
  gen_QNum_distances emax 0 m_width l_width s_width = Raise ZeroDivisionError.
Proof.
  intros Hemax. rewrite gen_QNum_distances_fill.
  apply (fill_fails_in_first_row _ emax 0); [lia | lia |].
  destruct (QtNm_covers 1) as [q Hq]; [lia|].
  unfold QNum_distance, subscript.
  change (0 + 1) with 1. rewrite (getitem_Some _ _ _ Hq). cbn [bind].
  rewrite py_div_zero by reflexivity. reflexivity.
Qed.

(** * The claims *)

(** C1, evaluated where the code departs from it.  With the single vector
    [[1.0]] supplied for element 1 and [emax = 2], the custom mode returns
    a matrix whose entry (0,0) is 0 and whose entry (1,1) is 1: the vector
    fills row 1, the row of element 2.  The claim puts element 1 on row 0,
    which gives 1 at (0,0) and 0 at (1,1). *)
Theorem gen_custom_key_one_fills_row_one :
  exists M,
    get_alchemy (Str "custom") 2 default_width default_width [(1, [1%R])]
      default_width default_width default_width default_width
    = ([], Ok (true, M)) /\
    getitem2 M 0 0 = Ok 0%R /\ custom_entry_spec [(1, [1%R])] 1 0 0 = 1%R /\
    getitem2 M 1 1 = Ok 1%R /\ custom_entry_spec [(1, [1%R])] 1 1 1 = 0%R.
Proof.
  exists [[dot [0%R] [0%R]; dot [0%R] [1%R]]; [dot [1%R] [0%R]; dot [1%R] [1%R]]].
  split; [reflexivity|]. repeat split.
  - change (Ok (dot [0%R] [0%R]) = Ok 0%R). f_equal. unfold dot. simpl. lra.
  - change (dot [1%R] [1%R] = 1%R). unfold dot. simpl. lra.
  - change (Ok (dot [1%R] [1%R]) = Ok 1%R). f_equal. unfold dot. simpl. lra.
  - change (dot [0%R] [0%R] = 0%R). unfold dot. simpl. lra.
Qed.




(** C3.  For a positive [emax], mode ["off"] returns the [emax] by [emax]
    identity matrix; a raw array is returned verbatim, so supplying that
    identity matrix as a raw array returns the same matrix. *)
Theorem get_alchemy_off_identity (emax : Z) (r_width c_width : R)
    (elemental_vectors : list (Z * list R)) (n_width m_width l_width s_width : R) :
  0 < emax ->
  exists pd,
    get_alchemy (Str "off") emax r_width c_width elemental_vectors
      n_width m_width l_width s_width = ([], Ok (false, pd)) /\
    is_identity emax pd /\
    forall raw, is_identity emax raw ->
      get_alchemy (Ndarray raw) emax r_width c_width elemental_vectors
        n_width m_width l_width s_width = ([], Ok (true, raw)) /\
      raw = pd.
Proof.
  intros Hemax. destruct (np_eye emax) as [pd|e] eqn:Heye.
  - exists pd. unfold get_alchemy. cbn [String.eqb Ascii.eqb Bool.eqb].
    rewrite Heye. split; [reflexivity|].
    apply np_eye_entries in Heye as (_ & Hshape & Hent).
    split; [split; assumption|].
    intros raw [Hshape' Hent']. split; [reflexivity|].
    apply (matrix_ext _ _ raw pd Hshape' Hshape).
    intros i j Hi Hj. rewrite Hent, Hent' by lia. reflexivity.
  - unfold np_eye in Heye. rewrite decide_False in Heye by lia. discriminate.
Qed.

Lemma get_alchemy_off_identity_witness :
  exists pd,
    get_alchemy (Str "off") 2 1 1 [] 1 1 1 1 = ([], Ok (false, pd)) /\
    is_identity 2 pd /\
    forall raw, is_identity 2 raw ->
      get_alchemy (Ndarray raw) 2 1 1 [] 1 1 1 1 = ([], Ok (true, raw)) /\
      raw = pd.
Proof. apply (get_alchemy_off_identity 2 1 1 [] 1 1 1 1). lia. Defined.





(** C6 as stated fails on the empty mapping, which is also the default
    of [get_alchemy]: no two vectors differ in length, all supplied vectors
    (there are none) share every length, and still the assertion on the
    number of dimensions fails. *)
Lemma gen_custom_empty_mapping_raises :
  (exists d, Forall (fun kv : Z * list R => length kv.2 = d) []) /\
  get_alchemy (Str "custom") default_emax default_width default_width []
    default_width default_width default_width default_width
  = ([], Raise unequal_dimensions).
Proof. split; [exists 0%nat; constructor | reflexivity]. Qed.

(** C6, amended.  The custom mode raises the assertion error on the number
    of dimensions, and returns no matrix, whenever two supplied vectors
    differ in length; when at least one vector is supplied and all supplied
    vectors share one length, no assertion error is raised. *)
Theorem get_alchemy_custom_dimension_check (emax : Z) (r_width c_width : R)
    (elemental_vectors : list (Z * list R)) (n_width m_width l_width s_width : R) :
  (forall kv1 kv2, kv1 ∈ elemental_vectors -> kv2 ∈ elemental_vectors ->
     length kv1.2 <> length kv2.2 ->
     get_alchemy (Str "custom") emax r_width c_width elemental_vectors
       n_width m_width l_width s_width = ([], Raise unequal_dimensions)) /\
  (elemental_vectors <> [] ->
   (exists d, Forall (fun kv => length kv.2 = d) elemental_vectors) ->
   forall msg,
     (get_alchemy (Str "custom") emax r_width c_width elemental_vectors
        n_width m_width l_width s_width).2 <> Raise (AssertionError msg)).
Proof.
  unfold get_alchemy. cbn [String.eqb Ascii.eqb Bool.eqb snd]. split.
  - intros kv1 kv2 H1 H2 Hne.
    rewrite (gen_custom_unequal _ emax kv1 kv2 H1 H2 Hne). reflexivity.
  - intros Hne [d Hd] msg H.
    destruct (gen_custom elemental_vectors emax) as [M|e] eqn:Hgen;
      cbn [bind] in H; [discriminate|].
    injection H as ->. exact (gen_custom_equal _ emax d Hne Hd msg Hgen).
Qed.

Lemma get_alchemy_custom_dimension_check_witness :
  get_alchemy (Str "custom") 3 1 1 [(0, [1%R]); (1, [1%R; 2%R])] 1 1 1 1
    = ([], Raise unequal_dimensions) /\
  (get_alchemy (Str "custom") 3 1 1 [(0, [1%R]); (1, [2%R])] 1 1 1 1).2
    <> Raise unequal_dimensions.
Proof.
  split.
  - apply (proj1 (get_alchemy_custom_dimension_check 3 1 1
                    [(0, [1%R]); (1, [1%R; 2%R])] 1 1 1 1)
             (0, [1%R]) (1, [1%R; 2%R])).
    + left.
    + right. left.
    + simpl. lia.
  - apply (proj2 (get_alchemy_custom_dimension_check 3 1 1
                    [(0, [1%R]); (1, [2%R])] 1 1 1 1)).
    + discriminate.
    + exists 1%nat. repeat constructor.
Defined.

(** C7.  For every string that is none of the four mode names,
    [get_alchemy] prints one line naming the string it was given and
    exits with status 1; no matrix is returned. *)
Theorem get_alchemy_unknown_mode (mode : string) (emax : Z) (r_width c_width : R)
    (elemental_vectors : list (Z * list R)) (n_width m_width l_width s_width : R) :
  mode ∉ modes ->
  get_alchemy (Str mode) emax r_width c_width elemental_vectors
    n_width m_width l_width s_width
  = ([String.append "QML ERROR: Unknown alchemical method specified: " mode],
     Raise (SystemExit 1)).
Proof.
  intros Hmode. unfold get_alchemy.
  assert (Hneq : forall m : string, m ∈ modes -> String.eqb mode m = false).
  { intros m Hm. apply String.eqb_neq. intros ->. contradiction. }
  rewrite !Hneq by (unfold modes; repeat constructor). reflexivity.
Qed.

Lemma get_alchemy_unknown_mode_witness :
  get_alchemy (Str "on") 100 1 1 [] 1 1 1 1
  = ([String.append "QML ERROR: Unknown alchemical method specified: " "on"],
     Raise (SystemExit 1)).
Proof.
  apply (get_alchemy_unknown_mode "on" 100 1 1 [] 1 1 1 1).
  unfold modes. intros H. repeat (apply elem_of_cons in H as [H|H]; [discriminate H|]).
  inversion H.
Defined.

(** C8 as stated fails: the quantum-number table assigns no key twice, and
    its rows for the atomic numbers 101 and 102 are two distinct tuples. *)
Lemma QtNm_101_102_do_not_collide :
  NoDup QtNm_items.*1 /\
  QtNm !! 101 = Some (7, 2, 3, (-1 # 2)%Q) /\
  QtNm !! 102 = Some (7, 3, 3, (-1 # 2)%Q) /\
  QtNm !! 101 <> QtNm !! 102.
Proof.
  split; [|split; [|split]].
  - apply (bool_decide_eq_true_1 (NoDup QtNm_items.*1)). vm_compute. reflexivity.
  - vm_compute. reflexivity.
  - vm_compute. reflexivity.
  - vm_compute. discriminate.
Qed.

(** C8, amended.  The key assigned twice is 101 in the periodic-table
    position table: the literal of [PTP] gives it [[7, 31]] and then
    [[7, 32]], so the table holds 118 keys for 119 items and 101 maps to
    [[7, 32]]; 102 maps to [[7, 14]], the position 108 has as well.  The
    quantum-number table has 118 distinct keys and distinct rows for 101
    and 102. *)
Theorem PTP_assigns_101_twice :
  PTP_items !! 115%nat = Some (101, (7, 31)) /\
  PTP_items !! 116%nat = Some (101, (7, 32)) /\
  length PTP_items = 119%nat /\ size PTP = 118%nat /\
  PTP !! 101 = Some (7, 32) /\
  PTP !! 102 = Some (7, 14) /\ PTP !! 108 = Some (7, 14) /\
  length QtNm_items = 118%nat /\ size QtNm = 118%nat /\
  QtNm !! 101 = Some (7, 2, 3, (-1 # 2)%Q) /\
  QtNm !! 102 = Some (7, 3, 3, (-1 # 2)%Q).
Proof. repeat split; vm_compute; reflexivity. Qed.




(** C10.  Whenever [get_alchemy] returns, its flag is [False] exactly when
    the argument is the string ["off"]; a raw array comes back with the
    flag [True], whatever the array is, the identity matrix included. *)
Theorem get_alchemy_flag (alchemy : alchemy_arg) (emax : Z) (r_width c_width : R)
    (elemental_vectors : list (Z * list R)) (n_width m_width l_width s_width : R)
    (doalchemy : bool) (M : matrix) :
  (get_alchemy alchemy emax r_width c_width elemental_vectors
     n_width m_width l_width s_width).2 = Ok (doalchemy, M) ->
  (doalchemy = false <-> alchemy = Str "off") /\
  (forall raw, alchemy = Ndarray raw -> doalchemy = true /\ M = raw).
Proof.
  intros Hret. split.
  - destruct alchemy as [raw|mode]; cbn in Hret.
    + injection Hret as <- <-. split; discriminate.
    + destruct (String.eqb_spec mode "off") as [->|Hoff].
      * apply bind_Ok_inv in Hret as (pd & _ & [= <- _]). split; reflexivity.
      * repeat (destruct (String.eqb mode _)); cbn [snd] in Hret;
          try discriminate;
          apply bind_Ok_inv in Hret as (pd & _ & [= <- _]);
          (split; [discriminate | intros [= ->]; contradiction]).
  - intros raw ->. cbn in Hret. injection Hret as <- <-. split; reflexivity.
Qed.

Lemma get_alchemy_flag_witness :
  ((false = false <-> Str "off" = Str "off") /\
   (forall raw, Str "off" = Ndarray raw -> false = true /\ [[1; 0]; [0; 1]]%R = raw)) /\
  ((true = false <-> Ndarray [[1; 0]; [0; 1]]%R = Str "off") /\
   (forall raw, Ndarray [[1; 0]; [0; 1]]%R = Ndarray raw ->
      true = true /\ [[1; 0]; [0; 1]]%R = raw)).
Proof.
  split.
  - apply (get_alchemy_flag (Str "off") 2 1 1 [] 1 1 1 1). reflexivity.
  - apply (get_alchemy_flag (Ndarray [[1; 0]; [0; 1]]%R) 2 1 1 [] 1 1 1 1).
    reflexivity.
Defined.

(** * Further properties of the code *)

(** ** [ceil] and [get_batch_size] *)

Lemma ceil_nonzero (a b : Z) :
  b <> 0 -> Utils.ceil a b = Utils.Ok (- (- a / b)).
Proof.
  intros Hb. unfold Utils.ceil, Utils.floordiv.
  rewrite decide_False by assumption. reflexivity.
Qed.

Lemma ceil_zero (a : Z) : Utils.ceil a 0 = Utils.Raise Utils.ZeroDivisionError.
Proof. reflexivity. Qed.

Lemma cdiv_pos_bounds (a b : Z) :
  0 < b -> b * (- (- a / b) - 1) < a <= b * - (- a / b).
Proof.
  intros Hb. pose proof (Z.div_mod (- a) b ltac:(lia)) as Hdm.
  pose proof (Z.mod_pos_bound (- a) b Hb). nia.
Qed.

Lemma cdiv_neg_bounds (a b : Z) :
  b < 0 -> b * - (- a / b) <= a < b * (- (- a / b) - 1).
Proof.
  intros Hb. pose proof (Z.div_mod (- a) b ltac:(lia)) as Hdm.
  pose proof (Z.mod_neg_bound (- a) b Hb). nia.
Qed.

Lemma cdiv_pos_unique (a b q : Z) :
  0 < b -> b * (q - 1) < a <= b * q -> q = - (- a / b).
Proof.
  intros Hb Hq. pose proof (cdiv_pos_bounds a b Hb). nia.
Qed.

(** X1.  [ceil(a, b)] is the quotient [a / b] rounded up, for a positive
    and for a negative divisor; a zero divisor is a [ZeroDivisionError]. *)
Theorem ceil_rounds_up (a b : Z) :
  (b = 0 -> Utils.ceil a b = Utils.Raise Utils.ZeroDivisionError) /\
  (0 < b -> exists q, Utils.ceil a b = Utils.Ok q /\ b * (q - 1) < a <= b * q) /\
  (b < 0 -> exists q, Utils.ceil a b = Utils.Ok q /\ b * q <= a < b * (q - 1)).
Proof.
  split; [|split].
  - intros ->. apply ceil_zero.
  - intros Hb. eexists. split; [apply ceil_nonzero; lia|].
    apply cdiv_pos_bounds, Hb.
  - intros Hb. eexists. split; [apply ceil_nonzero; lia|].
    apply cdiv_neg_bounds, Hb.
Qed.

Lemma ceil_rounds_up_witness :
  Utils.ceil 7 0 = Utils.Raise Utils.ZeroDivisionError /\
  (exists q, Utils.ceil 7 2 = Utils.Ok q /\ 2 * (q - 1) < 7 <= 2 * q) /\
  (exists q, Utils.ceil 7 (-2) = Utils.Ok q /\ -2 * q <= 7 < -2 * (q - 1)).
Proof.
  split; [|split].
  - apply (proj1 (ceil_rounds_up 7 0)). reflexivity.
  - apply (proj1 (proj2 (ceil_rounds_up 7 2))). lia.
  - apply (proj2 (proj2 (ceil_rounds_up 7 (-2)))). lia.
Defined.

(** X2.  A batch size above the number of samples is clipped to the number
    of samples, and the warning is printed. *)
Theorem get_batch_size_clips (batch_size n_samples : Z) :
  n_samples < batch_size ->
  Utils.get_batch_size batch_size n_samples
  = ([batch_warning], Utils.Ok n_samples).
Proof.
  intros H. unfold Utils.get_batch_size. rewrite decide_True by lia.
  rewrite Z.min_l by lia. reflexivity.
Qed.

Lemma get_batch_size_clips_witness :
  Utils.get_batch_size 10 3 = ([batch_warning], Utils.Ok 3).
Proof. apply (get_batch_size_clips 10 3). lia. Defined.

Lemma get_batch_size_value (batch_size n_samples : Z) :
  1 <= batch_size <= n_samples ->
  let batches := - (- n_samples / batch_size) in
  Utils.get_batch_size batch_size n_samples
    = ([], Utils.Ok (- (- n_samples / batches))) /\
  1 <= batches.
Proof.
  intros Hb batches.
  pose proof (cdiv_pos_bounds n_samples batch_size ltac:(lia)) as Hk.
  fold batches in Hk. assert (1 <= batches) by nia.
  split; [|assumption].
  unfold Utils.get_batch_size. rewrite decide_False by lia.
  rewrite (ceil_nonzero n_samples batch_size) by lia. cbn [Utils.bind].
  fold batches. rewrite (ceil_nonzero n_samples batches) by lia. reflexivity.
Qed.

(** X3.  For [1 <= batch_size <= n_samples] nothing is printed and the
    batch size returned is at least 1, at most the batch size asked for,
    and needs the same number of batches. *)
Theorem get_batch_size_keeps_batches (batch_size n_samples : Z) :
  1 <= batch_size <= n_samples ->
  exists better batches,
    Utils.get_batch_size batch_size n_samples = ([], Utils.Ok better) /\
    1 <= better <= batch_size /\
    Utils.ceil n_samples batch_size = Utils.Ok batches /\
    Utils.ceil n_samples better = Utils.Ok batches.
Proof.
  intros Hb.
  destruct (get_batch_size_value batch_size n_samples Hb) as [Hrun Hk].
  cbv zeta in Hrun, Hk. set (k := - (- n_samples / batch_size)) in *.
  set (r := - (- n_samples / k)) in *.
  pose proof (cdiv_pos_bounds n_samples batch_size ltac:(lia)) as Hkb.
  pose proof (cdiv_pos_bounds n_samples k ltac:(lia)) as Hrb.
  fold k in Hkb. fold r in Hrb.
  assert (Hr : 1 <= r <= batch_size) by nia.
  exists r, k. split; [assumption|]. split; [assumption|].
  split; [apply ceil_nonzero; lia|].
  rewrite ceil_nonzero by lia. f_equal. symmetry.
  apply cdiv_pos_unique; [lia|]. nia.
Qed.

Lemma get_batch_size_keeps_batches_witness :
  exists better batches,
    Utils.get_batch_size 4 10 = ([], Utils.Ok better) /\
    1 <= better <= 4 /\
    Utils.ceil 10 4 = Utils.Ok batches /\
    Utils.ceil 10 better = Utils.Ok batches.
Proof. apply (get_batch_size_keeps_batches 4 10). lia. Defined.

(** X4.  For [1 <= batch_size <= n_samples] the batches of the size
    returned cover all samples, and the last batch is short of the others
    by less than the number of batches. *)
Theorem get_batch_size_balances (batch_size n_samples : Z) :
  1 <= batch_size <= n_samples ->
  exists better batches,
    Utils.get_batch_size batch_size n_samples = ([], Utils.Ok better) /\
    Utils.ceil n_samples better = Utils.Ok batches /\
    let last := n_samples - better * (batches - 1) in
    better - batches < last <= better.
Proof.
  intros Hb.
  destruct (get_batch_size_keeps_batches batch_size n_samples Hb)
    as (r & k & Hrun & Hr & Hk & Hk').
  exists r, k. split; [assumption|]. split; [assumption|]. cbv zeta.
  rewrite ceil_nonzero in Hk, Hk' by lia.
  injection Hk as Hk. injection Hk' as Hk'.
  pose proof (cdiv_pos_bounds n_samples r ltac:(lia)) as Hb1.
  rewrite Hk' in Hb1.
  destruct (get_batch_size_value batch_size n_samples Hb) as [Hrun' Hk1].
  cbv zeta in Hrun', Hk1. rewrite Hk in Hrun', Hk1.
  rewrite Hrun in Hrun'. injection Hrun' as Hr'.
  pose proof (cdiv_pos_bounds n_samples k ltac:(lia)) as Hb2.
  rewrite <- Hr' in Hb2. nia.
Qed.

Lemma get_batch_size_balances_witness :
  exists better batches,
    Utils.get_batch_size 4 10 = ([], Utils.Ok better) /\
    Utils.ceil 10 better = Utils.Ok batches /\
    let last := 10 - better * (batches - 1) in
    better - batches < last <= better.
Proof. apply (get_batch_size_balances 4 10). lia. Defined.

(** X5.  Asking again with the batch size returned changes nothing. *)
Theorem get_batch_size_idempotent (batch_size n_samples better : Z) :
  1 <= batch_size <= n_samples ->
  Utils.get_batch_size batch_size n_samples = ([], Utils.Ok better) ->
  Utils.get_batch_size better n_samples = ([], Utils.Ok better).
Proof.
  intros Hb Hrun.
  destruct (get_batch_size_keeps_batches batch_size n_samples Hb)
    as (r & k & Hrun' & Hr & Hk & Hk').
  rewrite Hrun in Hrun'. injection Hrun' as ->.
  destruct (get_batch_size_value batch_size n_samples Hb) as [Hrun1 Hk1].
  cbv zeta in Hrun1, Hk1.
  rewrite ceil_nonzero in Hk, Hk' by lia.
  injection Hk as Hk. injection Hk' as Hk'.
  rewrite Hk in Hrun1. rewrite Hrun in Hrun1. injection Hrun1 as Hr1.
  destruct (get_batch_size_value r n_samples) as [Hrun2 _].
  { pose proof (cdiv_pos_bounds n_samples r ltac:(lia)). nia. }
  cbv zeta in Hrun2. rewrite Hk', <- Hr1 in Hrun2. exact Hrun2.
Qed.

Lemma get_batch_size_idempotent_witness :
  Utils.get_batch_size 5 10 = ([], Utils.Ok 5).
Proof. apply (get_batch_size_idempotent 6 10 5); [lia | reflexivity]. Defined.

(** X6.  For a batch size that is not above the number of samples, the
    call ends in a [ZeroDivisionError] exactly when the batch size is zero,
    or negative with [0 <= n_samples < - batch_size]. *)
Theorem get_batch_size_zero_division (batch_size n_samples : Z) :
  batch_size <= n_samples ->
  (Utils.get_batch_size batch_size n_samples
   = ([], Utils.Raise Utils.ZeroDivisionError)
   <-> batch_size = 0 \/ (batch_size < 0 /\ 0 <= n_samples < - batch_size)).
Proof.
  intros Hb. unfold Utils.get_batch_size. rewrite decide_False by lia.
  destruct (decide (batch_size = 0)) as [->|Hb0].
  { split; [auto | reflexivity]. }
  rewrite ceil_nonzero by assumption. cbn [Utils.bind].
  set (k := - (- n_samples / batch_size)).
  assert (Hk0 : k = 0 <-> batch_size < 0 /\ 0 <= n_samples < - batch_size).
  { destruct (Z.lt_trichotomy batch_size 0) as [Hneg|[?|Hpos]]; [|lia|].
    - pose proof (cdiv_neg_bounds n_samples batch_size Hneg). fold k in H.
      split; [intros Hk; rewrite Hk in H; lia | nia].
    - pose proof (cdiv_pos_bounds n_samples batch_size Hpos). fold k in H.
      split; [intros Hk; rewrite Hk in H; lia | lia]. }
  destruct (decide (k = 0)) as [Hk|Hk].
  - rewrite Hk. split; [intros _; right; apply Hk0, Hk | reflexivity].
  - rewrite ceil_nonzero by assumption. cbn [Utils.bind].
    split; [discriminate|]. intros [?|H]; [contradiction|].
    apply Hk0 in H. contradiction.
Qed.

Lemma get_batch_size_zero_division_witness :
  Utils.get_batch_size (-5) 3 = ([], Utils.Raise Utils.ZeroDivisionError)
  <-> -5 = 0 \/ (-5 < 0 /\ 0 <= 3 < - -5).
Proof. apply (get_batch_size_zero_division (-5) 3). lia. Defined.

(** ** [get_pairs] and [get_unique] *)

Example get_pairs_docstring :
  Utils.get_pairs [1; 2; 3] = [[1; 1]; [1; 2]; [1; 3]; [2; 2]; [2; 3]; [3; 3]].
Proof. reflexivity. Qed.

Lemma append_pairs {A : Type} (v : A) (l : list A) (pairs : list (list A)) :
  fold_left (fun pairs w => pairs ++ [[v; w]]) l pairs
  = pairs ++ ((fun w => [v; w]) <$> l).
Proof.
  revert pairs. induction l as [|w l IH]; intros pairs; simpl.
  - rewrite app_nil_r. reflexivity.
  - rewrite IH, <- app_assoc. reflexivity.
Qed.

Lemma get_pairs_from {A : Type} (x y : list A) (k : nat) (pairs : list (list A)) :
  fold_left (fun pairs iv =>
    fold_left (fun pairs w => pairs ++ [[iv.2; w]]) (drop iv.1 x) pairs)
    (imap (fun i v => (k + i, v)%nat) y) pairs
  = pairs ++ concat (imap (fun i v => (fun w => [v; w]) <$> drop (k + i) x) y).
Proof.
  revert k pairs. induction y as [|v y IH]; intros k pairs; simpl.
  - rewrite app_nil_r. reflexivity.
  - rewrite append_pairs.
    rewrite (imap_ext ((fun i v0 => ((k + i)%nat, v0)) ∘ S)
               (fun i v0 => ((S k + i)%nat, v0)) y)
      by (intros; simpl; f_equal; lia).
    rewrite (IH (S k)), <- app_assoc. do 3 f_equal.
    apply imap_ext. intros i w _. simpl. do 2 f_equal. lia.
Qed.

Lemma get_pairs_concat {A : Type} (x : list A) :
  Utils.get_pairs x
  = concat (imap (fun i v => (fun w => [v; w]) <$> drop i x) x).
Proof. exact (get_pairs_from x x 0 []). Qed.

Lemma get_pairs_cons {A : Type} (v : A) (x : list A) :
  Utils.get_pairs (v :: x) = ((fun w => [v; w]) <$> v :: x) ++ Utils.get_pairs x.
Proof.
  rewrite !get_pairs_concat. reflexivity.
Qed.

(** X7.  A list of [n] items has [n (n + 1) / 2] pairs. *)
Theorem get_pairs_length {A : Type} (x : list A) :
  (2 * length (Utils.get_pairs x) = length x * (length x + 1))%nat.
Proof.
  induction x as [|v x IH]; [reflexivity|].
  rewrite get_pairs_cons, length_app, length_fmap. simpl length. lia.
Qed.

(** X8.  The pairs are exactly the lists [[v, w]] with [v] at some
    position of the input and [w] at the same or a later position. *)
Theorem get_pairs_elem_of {A : Type} (x : list A) (p : list A) :
  p ∈ Utils.get_pairs x <->
  exists i j v w, p = [v; w] /\ (i <= j)%nat /\ x !! i = Some v /\ x !! j = Some w.
Proof.
  revert p. induction x as [|u x IH]; intros p.
  - split; [intros H; inversion H|].
    intros (i & j & v & w & _ & _ & Hv & _). discriminate.
  - rewrite get_pairs_cons, elem_of_app, list_elem_of_fmap, IH. split.
    + intros [(w & -> & Hw)|(i & j & v & w & -> & Hij & Hv & Hw)].
      * apply list_elem_of_lookup in Hw as [j Hj].
        exists 0%nat, j, u, w. repeat split; [lia | assumption].
      * exists (S i), (S j), v, w. repeat split; [lia | assumption..].
    + intros (i & j & v & w & -> & Hij & Hv & Hw). destruct i as [|i].
      * injection Hv as <-. left. exists w. split; [reflexivity|].
        apply list_elem_of_lookup. eauto.
      * destruct j as [|j]; [lia|]. right.
        exists i, j, v, w. repeat split; [lia | assumption..].
Qed.

Lemma StronglySorted_le_lt (l : list Z) :
  StronglySorted Z.le l -> NoDup l -> StronglySorted Z.lt l.
Proof.
  induction 1 as [|z l Hl IH Hz]; intros Hnd; constructor.
  - apply IH. apply NoDup_cons in Hnd as [_ ?]. assumption.
  - apply NoDup_cons in Hnd as [Hnin _].
    rewrite Forall_forall in Hz. apply Forall_forall. intros y Hy.
    specialize (Hz y Hy). assert (y <> z) by (intros ->; contradiction). lia.
Qed.

(** X9.  [get_unique] returns the items of the inner lists, each once, in
    strictly increasing order. *)
Theorem get_unique_sorted (x : list (list Z)) :
  StronglySorted Z.lt (Utils.get_unique x) /\
  forall z, z ∈ Utils.get_unique x <-> exists l, l ∈ x /\ z ∈ l.
Proof.
  unfold Utils.get_unique. split.
  - apply StronglySorted_le_lt.
    + apply StronglySorted_merge_sort; apply _.
    + rewrite merge_sort_Permutation. apply NoDup_elements.
  - intros z. rewrite merge_sort_Permutation, elem_of_elements, elem_of_list_to_set.
    rewrite list_elem_of_In, in_concat. split.
    + intros (l & Hl & Hz). exists l. rewrite !list_elem_of_In. auto.
    + intros (l & Hl & Hz). exists l. rewrite <- !list_elem_of_In. auto.
Qed.

(** ** [check_sizes] *)

Lemma ubind_Ok_inv {A B : Type} (c : Utils.result A) (k : A -> Utils.result B) (b : B) :
  Utils.bind c k = Utils.Ok b -> exists a, c = Utils.Ok a /\ k a = Utils.Ok b.
Proof. destruct c as [a|e]; simpl; [eauto | discriminate]. Qed.

Lemma avoids_Ok {A : Type} (t : string) (a : A) : avoids t (Utils.Ok a).
Proof. intros args. discriminate. Qed.

Lemma avoids_bind {A B : Type} (t : string) (c : Utils.result A)
    (k : A -> Utils.result B) :
  avoids t c -> (forall a, avoids t (k a)) -> avoids t (Utils.bind c k).
Proof.
  intros Hc Hk args. destruct c as [a|e]; simpl; [apply Hk|].
  intros [= ->]. exact (Hc args eq_refl).
Qed.

Lemma avoids_shape_of (t : string) (a : option (list Z)) :
  avoids t (Utils.shape_of a).
Proof. intros args. destruct a; discriminate. Qed.

Lemma avoids_dim (t : string) (a : option (list Z)) (k : nat) :
  avoids t (Utils.dim a k).
Proof.
  apply avoids_bind; [apply avoids_shape_of|].
  intros sh args. destruct (sh !! k); discriminate.
Qed.

Lemma avoids_ne_or (t : string) (a b : Utils.result Z) (rest : Utils.result bool) :
  avoids t a -> avoids t b -> avoids t rest -> avoids t (Utils.ne_or a b rest).
Proof.
  intros Ha Hb Hrest. apply avoids_bind; [assumption|]. intros va.
  apply avoids_bind; [assumption|]. intros vb.
  destruct (negb (va =? vb)); [apply avoids_Ok | assumption].
Qed.

Lemma avoids_ne (t : string) (a b : Utils.result Z) :
  avoids t a -> avoids t b -> avoids t (Utils.ne a b).
Proof. intros Ha Hb. apply avoids_ne_or; try assumption. apply avoids_Ok. Qed.

Lemma avoids_tuple (t : string) (items : list (Utils.result Z)) :
  Forall (avoids t) items -> avoids t (Utils.tuple items).
Proof.
  induction 1 as [|c items Hc _ IH]; [apply avoids_Ok|].
  simpl. apply avoids_bind; [assumption|]. intros n.
  apply avoids_bind; [assumption|]. intros ns. apply avoids_Ok.
Qed.

Lemma avoids_raise_if (t t' : string) (c : bool) (args : Utils.result (list Z)) :
  t' <> t -> avoids t args -> avoids t (Utils.raise_if c t' args).
Proof.
  intros Hne Hargs. unfold Utils.raise_if. destruct c; [|apply avoids_Ok].
  apply avoids_bind; [assumption|]. intros a args'. intros [= ? _]. contradiction.
Qed.

(** X10.  The error ["Only x is not none."] is never raised: with [y],
    [dy] and [classes] all [None] the first branch is taken, and there a
    call with an array [x] of at least one dimension ends in the
    [AttributeError] of [y.shape]. *)
Theorem check_sizes_only_x (x y dy classes : option (list Z)) :
  (forall args,
     Utils.check_sizes x y dy classes
     <> Utils.Raise (Utils.InputError "Only x is not none." args)) /\
  (forall n sh,
     Utils.check_sizes (Some (n :: sh)) None None None
     = Utils.Raise Utils.AttributeError).
Proof.
  split; [|reflexivity].
  assert (Hdims : forall items,
            Forall (fun c => exists a k, c = Utils.dim a k) items ->
            avoids "Only x is not none." (Utils.tuple items)).
  { intros items Hitems. apply avoids_tuple.
    eapply Forall_impl; [exact Hitems|]. intros c (a & k & ->). apply avoids_dim. }
  change (avoids "Only x is not none." (Utils.check_sizes x y dy classes)).
  unfold Utils.check_sizes.
  destruct y, dy, classes; cbn [Utils.is_None andb negb];
    repeat first
      [ apply avoids_Ok
      | apply avoids_dim
      | apply avoids_shape_of
      | apply avoids_ne
      | apply avoids_ne_or
      | apply avoids_raise_if; [discriminate|apply Hdims; repeat constructor; eauto]
      | apply avoids_bind; [|intros ?]
      | match goal with |- avoids _ (if ?b then _ else _) => destruct b end ].
Qed.

Lemma dim_Ok_inv (a : option (list Z)) (k : nat) (n : Z) :
  Utils.dim a k = Utils.Ok n -> exists sh, a = Some sh /\ sh !! k = Some n.
Proof.
  destruct a as [sh|]; [|discriminate]. unfold Utils.dim. simpl.
  destruct (sh !! k) as [m|] eqn:Hm; [|discriminate]. intros [= ->]. eauto.
Qed.

Lemma ne_or_Ok_inv (a b : Utils.result Z) (rest : Utils.result bool) (c : bool) :
  Utils.ne_or a b rest = Utils.Ok c ->
  exists va vb, a = Utils.Ok va /\ b = Utils.Ok vb /\
    ((va <> vb /\ c = true) \/ (va = vb /\ rest = Utils.Ok c)).
Proof.
  unfold Utils.ne_or. intros H.
  apply ubind_Ok_inv in H as (va & -> & H).
  apply ubind_Ok_inv in H as (vb & -> & H).
  exists va, vb. split; [reflexivity|]. split; [reflexivity|].
  destruct (Z.eqb_spec va vb) as [->|Hne]; simpl in H.
  - right. auto.
  - left. injection H as <-. auto.
Qed.

Lemma ne_Ok_false_inv (a b : Utils.result Z) :
  Utils.ne a b = Utils.Ok false -> exists v, a = Utils.Ok v /\ b = Utils.Ok v.
Proof.
  intros H. apply ne_or_Ok_inv in H as (va & vb & -> & -> & [[_ ?]|[-> _]]);
    [discriminate | eauto].
Qed.

Lemma raise_if_Ok_inv (c : bool) (t : string) (args : Utils.result (list Z)) (u : unit) :
  Utils.raise_if c t args = Utils.Ok u -> c = false.
Proof.
  destruct c; [|reflexivity]. unfold Utils.raise_if.
  destruct args; discriminate.
Qed.

(** What one comparison of dimensions gives when no error follows. *)
Lemma dims_checked (a b : Utils.result Z) (rest : Utils.result bool)
    (t : string) (args : Utils.result (list Z))
    (k : unit -> Utils.result unit) (u : unit) :
  Utils.bind (Utils.ne_or a b rest)
    (fun c => Utils.bind (Utils.raise_if c t args) k) = Utils.Ok u ->
  exists v, a = Utils.Ok v /\ b = Utils.Ok v /\ rest = Utils.Ok false /\
    k tt = Utils.Ok u.
Proof.
  intros H. apply ubind_Ok_inv in H as (c & Hc & H).
  apply ubind_Ok_inv in H as ([] & Hraise & H).
  apply raise_if_Ok_inv in Hraise as ->.
  apply ne_or_Ok_inv in Hc as (va & vb & -> & -> & [[_ ?]|[-> ->]]);
    [discriminate|]. eauto.
Qed.

Lemma dims_checked_last (a b : Utils.result Z) (rest : Utils.result bool)
    (t : string) (args : Utils.result (list Z)) (u : unit) :
  Utils.bind (Utils.ne_or a b rest) (fun c => Utils.raise_if c t args)
  = Utils.Ok u ->
  exists v, a = Utils.Ok v /\ b = Utils.Ok v /\ rest = Utils.Ok false.
Proof.
  intros H. apply ubind_Ok_inv in H as (c & Hc & Hraise).
  apply raise_if_Ok_inv in Hraise as ->.
  apply ne_or_Ok_inv in Hc as (va & vb & -> & -> & [[_ ?]|[-> ->]]);
    [discriminate|]. eauto.
Qed.

(** X11.  When [check_sizes] returns, [x] is an array and every argument
    among [y], [dy] and [classes] that is not [None] is an array with the
    first dimension of [x]. *)
Theorem check_sizes_first_dimension (x y dy classes : option (list Z)) :
  Utils.check_sizes x y dy classes = Utils.Ok tt ->
  exists n, Utils.dim x 0 = Utils.Ok n /\
    forall a, a ∈ [y; dy; classes] -> a <> None -> Utils.dim a 0 = Utils.Ok n.
Proof.
  unfold Utils.check_sizes.
  destruct y as [sy|], dy as [sdy|], classes as [sc|];
    cbn [Utils.is_None andb negb]; unfold Utils.ne; intros H.
  all: try (apply dims_checked in H as (n & Hx & Hy & Hrest & H)).
  all: try (apply dims_checked_last in H as (n & Hx & Hy & Hrest)).
  all: try discriminate.
  all: repeat match goal with
       | H : Utils.ne_or _ _ _ = Utils.Ok false |- _ =>
           apply ne_or_Ok_inv in H as (? & ? & ? & ? & [[_ ?]|[-> ?]]);
           [discriminate|]
       end.
  all: exists n; split; [assumption|].
  all: intros a Ha Hsome;
       repeat (apply elem_of_cons in Ha as [->|Ha]; [try congruence|]);
       try (inversion Ha).
Qed.

Lemma check_sizes_first_dimension_witness :
  exists n, Utils.dim (Some [5; 3; 7]) 0 = Utils.Ok n /\
    forall a, a ∈ [Some [5; 1]; None; Some [5; 3]] -> a <> None ->
      Utils.dim a 0 = Utils.Ok n.
Proof.
  apply (check_sizes_first_dimension (Some [5; 3; 7]) (Some [5; 1]) None (Some [5; 3])).
  reflexivity.
Defined.

Lemma second_dimension_checked (x : option (list Z)) (sc : list Z)
    (t : string) (args : Utils.result (list Z)) (u : unit) :
  Utils.bind (Utils.shape_of x) (fun sh =>
    if (length sh =? 3)%nat then
      Utils.bind (Utils.ne (Utils.dim x 1) (Utils.dim (Some sc) 1))
        (fun c => Utils.raise_if c t args)
    else Utils.Ok tt) = Utils.Ok u ->
  (exists sh, x = Some sh /\ length sh = 3%nat) ->
  exists m, Utils.dim x 1 = Utils.Ok m /\ Utils.dim (Some sc) 1 = Utils.Ok m.
Proof.
  intros H (sh & -> & Hlen). cbn [Utils.shape_of Utils.bind] in H.
  rewrite Hlen in H. cbn [Nat.eqb] in H. unfold Utils.ne in H.
  apply dims_checked_last in H as (m & Hx & Hc & _). eauto.
Qed.

(** X12.  When [check_sizes] returns and [classes] is given, the second
    dimensions of [x] and [classes] agree whenever [x] has three dimensions
    or [dy] is given, and then the second dimension of [dy] agrees too. *)
Theorem check_sizes_second_dimension (x y dy classes : option (list Z)) :
  Utils.check_sizes x y dy classes = Utils.Ok tt ->
  classes <> None ->
  (dy <> None \/ exists sh, x = Some sh /\ length sh = 3%nat) ->
  exists m, Utils.dim x 1 = Utils.Ok m /\ Utils.dim classes 1 = Utils.Ok m /\
    (dy <> None -> Utils.dim dy 1 = Utils.Ok m).
Proof.
  unfold Utils.check_sizes. intros H Hclasses Hthree.
  destruct classes as [sc|]; [clear Hclasses | contradiction].
  destruct dy as [sdy|].
  - clear Hthree. rewrite !andb_false_r in H. cbn [andb Utils.is_None] in H.
    apply dims_checked in H as (_ & _ & _ & _ & H).
    unfold Utils.ne in H.
    apply dims_checked_last in H as (m & Hx & Hdy & Hc).
    apply ne_or_Ok_inv in Hc as (? & ? & Hx' & Hc & [[_ ?]|[-> _]]); [discriminate|].
    rewrite Hx in Hx'. injection Hx' as <-. eauto.
  - destruct Hthree as [?|Hthree]; [contradiction|].
    destruct y as [sy|]; cbn [Utils.is_None andb negb] in H; unfold Utils.ne in H;
      apply dims_checked in H as (_ & _ & _ & _ & H);
      destruct (second_dimension_checked _ _ _ _ _ H Hthree) as (m & Hx & Hc);
      exists m; (split; [assumption|]); (split; [assumption|]);
      intros Hdy; contradiction.
Qed.

Lemma check_sizes_second_dimension_witness :
  exists m, Utils.dim (Some [5; 3; 7]) 1 = Utils.Ok m /\
    Utils.dim (Some [5; 3]) 1 = Utils.Ok m /\
    (@None (list Z) <> None -> Utils.dim None 1 = Utils.Ok m).
Proof.
  apply (check_sizes_second_dimension (Some [5; 3; 7]) (Some [5; 1]) None (Some [5; 3])).
  - reflexivity.
  - discriminate.
  - right. exists [5; 3; 7]. split; reflexivity.
Defined.

(** X13.  With only [x] and [y] given as arrays of at least one
    dimension, [check_sizes] returns when their first dimensions agree and
    raises the [InputError] carrying the two dimensions when they do not. *)
Theorem check_sizes_x_y (n m : Z) (sx sy : list Z) :
  (n = m ->
   Utils.check_sizes (Some (n :: sx)) (Some (m :: sy)) None None = Utils.Ok tt) /\
  (n <> m ->
   Utils.check_sizes (Some (n :: sx)) (Some (m :: sy)) None None
   = Utils.Raise (Utils.InputError
       "The descriptor and the properties should have the same first number of elements in the first dimension. Got %s and %s"
       [n; m])).
Proof.
  unfold Utils.check_sizes, Utils.ne, Utils.ne_or, Utils.dim.
  cbn [Utils.is_None andb Utils.shape_of Utils.bind lookup list_lookup].
  split; intros H.
  - subst m. rewrite Z.eqb_refl. reflexivity.
  - apply Z.eqb_neq in H. rewrite H. reflexivity.
Qed.

Lemma check_sizes_x_y_witness :
  Utils.check_sizes (Some [5; 3]) (Some [5; 1]) None None = Utils.Ok tt /\
  Utils.check_sizes (Some [5; 3]) (Some [4; 1]) None None
  = Utils.Raise (Utils.InputError
      "The descriptor and the properties should have the same first number of elements in the first dimension. Got %s and %s"
      [5; 4]).
Proof.
  split.
  - apply (proj1 (check_sizes_x_y 5 5 [3] [1])). reflexivity.
  - apply (proj2 (check_sizes_x_y 5 4 [3] [1])). lia.
Defined.

(** ** The element names *)

Lemma gmap_forall {K V : Type} `{Countable K} (d : gmap K V) (P : K -> V -> bool) :
  forallb (fun kv => P kv.1 kv.2) (map_to_list d) = true ->
  forall k v, d !! k = Some v -> P k v = true.
Proof.
  intros Hall k v Hk. rewrite forallb_forall in Hall.
  apply elem_of_map_to_list, list_elem_of_In, Hall in Hk. exact Hk.
Qed.

(** X14.  [ELEMENT_NAME] and [NUCLEAR_CHARGE] are inverse to each other:
    a number has a name exactly when that name has this number. *)
Theorem element_name_round_trip (z : Z) (name : string) :
  ELEMENT_NAME !! z = Some name <-> NUCLEAR_CHARGE !! name = Some z.
Proof.
  split; intros H.
  - apply (gmap_forall ELEMENT_NAME
             (fun z name => bool_decide (NUCLEAR_CHARGE !! name = Some z))) in H;
      [apply bool_decide_eq_true in H; exact H|]. vm_compute. reflexivity.
  - apply (gmap_forall NUCLEAR_CHARGE
             (fun name z => bool_decide (ELEMENT_NAME !! z = Some name))) in H;
      [apply bool_decide_eq_true in H; exact H|]. vm_compute. reflexivity.
Qed.

(** X15.  The atomic numbers with a name are 1 to 112, 114 and 116: the
    elements 113, 115, 117 and 118, which [PTP] and [QtNm] cover, have
    none. *)
Theorem element_name_keys (z : Z) :
  is_Some (ELEMENT_NAME !! z) <-> 1 <= z <= 112 \/ z = 114 \/ z = 116.
Proof.
  split.
  - intros [name H].
    apply (gmap_forall ELEMENT_NAME
             (fun z _ => bool_decide (1 <= z <= 112 \/ z = 114 \/ z = 116))) in H;
      [apply bool_decide_eq_true in H; exact H|]. vm_compute. reflexivity.
  - intros Hz.
    assert (Hall : forallb (fun k => bool_decide (is_Some (ELEMENT_NAME !! k)))
                     ((Z.of_nat <$> seq 1 112) ++ [114; 116]) = true)
      by (vm_compute; reflexivity).
    rewrite forallb_forall in Hall.
    apply (bool_decide_eq_true_1 (is_Some (ELEMENT_NAME !! z))).
    apply Hall, list_elem_of_In, elem_of_app.
    destruct Hz as [Hz|[->| ->]].
    + left. apply list_elem_of_fmap. exists (Z.to_nat z).
      split; [lia|]. apply elem_of_seq. lia.
    + right. left.
    + right. right. left.
Qed.

(** ** More on the custom generator *)

(** X16.  With distinct keys in [[0, emax)] and vectors of one length,
    the custom mode returns a matrix whose entry [(i, j)] is the dot
    product of the vectors held under the keys [i] and [j], a key without
    a vector standing for the zero vector. *)
Theorem get_alchemy_custom_entries (e_vec : list (Z * list R)) (emax : Z) (d : nat)
    (r_width c_width n_width m_width l_width s_width : R) :
  e_vec <> [] -> NoDup e_vec.*1 ->
  Forall (fun kv => 0 <= kv.1 < emax /\ length kv.2 = d) e_vec ->
  exists M,
    get_alchemy (Str "custom") emax r_width c_width e_vec
      n_width m_width l_width s_width = ([], Ok (true, M)) /\
    forall i j, 0 <= i < emax -> 0 <= j < emax ->
      getitem2 M i j
      = Ok (dot (supplied_vector e_vec d i) (supplied_vector e_vec d j)).
Proof.
  intros Hne Hnodup Hall.
  destruct (gen_custom_entries e_vec emax d Hne Hnodup Hall) as (M & HM & Hent).
  exists M. split; [|assumption].
  unfold get_alchemy. cbn [String.eqb Ascii.eqb Bool.eqb]. rewrite HM. reflexivity.
Qed.

Lemma get_alchemy_custom_entries_witness :
  exists M,
    get_alchemy (Str "custom") 3 1 1 [(0, [1%R; 2%R]); (2, [3%R; 4%R])] 1 1 1 1
    = ([], Ok (true, M)) /\
    forall i j, 0 <= i < 3 -> 0 <= j < 3 ->
      getitem2 M i j
      = Ok (dot (supplied_vector [(0, [1%R; 2%R]); (2, [3%R; 4%R])] 2 i)
                (supplied_vector [(0, [1%R; 2%R]); (2, [3%R; 4%R])] 2 j)).
Proof.
  apply (get_alchemy_custom_entries [(0, [1%R; 2%R]); (2, [3%R; 4%R])] 3 2 1 1 1 1 1 1).
  - discriminate.
  - apply (bool_decide_eq_true_1 (NoDup [0; 2])). reflexivity.
  - repeat constructor; simpl; lia.
Defined.

Lemma setrow_mod (tmp : matrix) (emax k : Z) (v : list R) :
  Z.of_nat (length tmp) = emax -> - emax <= k < emax ->
  setrow tmp (k mod emax) v = setrow tmp k v.
Proof.
  intros Hlen Hk. unfold setrow.
  assert (Hidx : np_index (length tmp) (k mod emax) = np_index (length tmp) k).
  { unfold np_index. rewrite Hlen.
    destruct (decide (0 <= k)) as [Hpos|Hneg].
    - rewrite Z.mod_small by lia. reflexivity.
    - replace (k mod emax) with (k + emax)
        by (apply Z.mod_unique with (-1); lia).
      rewrite decide_True by lia. rewrite (decide_False (P := 0 <= k < emax)) by lia.
      rewrite decide_True by lia. reflexivity. }
  rewrite Hidx. reflexivity.
Qed.

Lemma assign_rows_mod (e_vec : list (Z * list R)) (emax : Z) :
  Forall (fun kv => - emax <= kv.1 < emax) e_vec ->
  forall tmp, Z.of_nat (length tmp) = emax ->
  assign_rows ((fun kv => (kv.1 mod emax, kv.2)) <$> e_vec) tmp
  = assign_rows e_vec tmp.
Proof.
  induction 1 as [|[k v] e_vec Hk _ IH]; intros tmp Hlen; [reflexivity|].
  rewrite fmap_cons. cbn [fst snd]. rewrite !assign_rows_cons.
  rewrite (setrow_mod tmp emax k v Hlen Hk).
  destruct (setrow tmp k v) as [tmp1|e] eqn:Hset; [|reflexivity].
  cbn [bind]. apply IH. apply setrow_length in Hset. lia.
Qed.

(** X17.  A negative key counts rows from the end.  For a dict whose keys
    lie in [[-emax, emax)] and name different rows, replacing every key [k]
    by [k mod emax] gives a dict again, and changes nothing in what the
    custom generator returns or raises. *)
Theorem gen_custom_negative_keys (e_vec : list (Z * list R)) (emax : Z) :
  Forall (fun kv => - emax <= kv.1 < emax) e_vec ->
  NoDup ((fun kv => kv.1 mod emax) <$> e_vec) ->
  NoDup e_vec.*1 /\
  NoDup ((fun kv : Z * list R => (kv.1 mod emax, kv.2)) <$> e_vec).*1 /\
  gen_custom ((fun kv => (kv.1 mod emax, kv.2)) <$> e_vec) emax
  = gen_custom e_vec emax.
Proof.
  intros Hkeys Hnodup. split; [|split].
  - apply (NoDup_fmap_1 (fun k => k mod emax)).
    rewrite <- list_fmap_compose. exact Hnodup.
  - rewrite <- list_fmap_compose. exact Hnodup.
  - rewrite !gen_custom_unfold. cbv zeta.
    rewrite <- list_fmap_compose.
    change ((fun kv : Z * list R => length kv.2)
              ∘ (fun kv : Z * list R => (kv.1 mod emax, kv.2)))
      with (fun kv : Z * list R => length kv.2).
    destruct (py_assert _ _) as [[]|e]; [|reflexivity]. cbn [bind].
    destruct (match _ with [] => _ | _ => _ end) as [d|e]; [|reflexivity].
    cbn [bind].
    destruct (np_zeros2 emax (Z.of_nat d)) as [tmp|e] eqn:Htmp; [|reflexivity].
    cbn [bind]. rewrite (assign_rows_mod e_vec emax Hkeys); [reflexivity|].
    apply np_zeros2_shape in Htmp as (? & _ & [Hlen _]). lia.
Qed.

Lemma gen_custom_negative_keys_witness :
  NoDup [(-1, [1%R]); (0, [2%R])].*1 /\
  NoDup [(2, [1%R]); (0, [2%R])].*1 /\
  gen_custom [(2, [1%R]); (0, [2%R])] 3 = gen_custom [(-1, [1%R]); (0, [2%R])] 3.
Proof.
  apply (gen_custom_negative_keys [(-1, [1%R]); (0, [2%R])] 3).
  - repeat constructor; simpl; lia.
  - apply (bool_decide_eq_true_1 (NoDup [2; 0])). reflexivity.
Defined.

Lemma assign_rows_out_of_range (r c : nat) (e_vec : list (Z * list R)) :
  Forall (fun kv => length kv.2 = c) e_vec ->
  Exists (fun kv => ~ (- Z.of_nat r <= kv.1 < Z.of_nat r)) e_vec ->
  forall tmp, shape r c tmp -> assign_rows e_vec tmp = Raise IndexError.
Proof.
  intros Hlen. induction Hlen as [|[k v] e_vec Hv _ IH]; intros Hbad tmp Htmp.
  - inversion Hbad.
  - rewrite assign_rows_cons.
    destruct (decide (- Z.of_nat r <= k < Z.of_nat r)) as [Hk|Hk].
    + destruct (setrow_ok r c tmp k v Htmp Hk Hv) as (tmp1 & -> & Htmp1).
      cbn [bind]. apply IH; [|assumption].
      apply Exists_cons in Hbad as [Hbad|Hbad]; [contradiction | assumption].
    + unfold setrow. destruct Htmp as [-> _].
      unfold np_index. rewrite !decide_False by lia. reflexivity.
Qed.

(** X18.  With at least one vector, vectors of one length and keys that
    fit a C long, a key outside [[-emax, emax)] makes the custom generator
    raise [IndexError]; the key [emax] itself is such a key. *)
Theorem gen_custom_key_out_of_range (e_vec : list (Z * list R)) (emax : Z) (d : nat) :
  0 <= emax -> e_vec <> [] ->
  Forall (fun kv => length kv.2 = d) e_vec ->
  Forall (fun kv => - 2 ^ 63 <= kv.1 < 2 ^ 63) e_vec ->
  Exists (fun kv => ~ (- emax <= kv.1 < emax)) e_vec ->
  gen_custom e_vec emax = Raise IndexError.
Proof.
  intros Hemax Hne Hd _ Hbad. rewrite gen_custom_unfold. cbv zeta.
  destruct e_vec as [|[k v] e_vec]; [contradiction|].
  rewrite fmap_cons. cbn [snd].
  assert (Hv : length v = d) by (inversion Hd; assumption).
  assert (Hu : check_if_unique (length v :: ((fun kv => length kv.2) <$> e_vec)) = true).
  { apply check_if_unique_cons, Forall_fmap.
    apply Forall_cons in Hd as [_ Hd].
    eapply Forall_impl; [exact Hd|]. intros kv Hkv. simpl. congruence. }
  rewrite Hu. cbn [py_assert bind]. rewrite Hv.
  destruct (np_zeros2_ok emax (Z.of_nat d)) as [tmp0 H0]; [lia..|].
  rewrite H0. cbn [bind].
  apply np_zeros2_shape in H0 as (_ & _ & Hshape). rewrite Nat2Z.id in Hshape.
  rewrite (assign_rows_out_of_range (Z.to_nat emax) d _ Hd); [reflexivity | | assumption].
  eapply Exists_impl; [exact Hbad|]. intros kv Hkv. simpl in *. lia.
Qed.

Lemma gen_custom_key_out_of_range_witness :
  gen_custom [(1, [1%R]); (3, [2%R])] 3 = Raise IndexError.
Proof.
  apply (gen_custom_key_out_of_range [(1, [1%R]); (3, [2%R])] 3 1).
  - lia.
  - discriminate.
  - repeat constructor.
  - repeat constructor; simpl; lia.
  - right. left. simpl. lia.
Defined.

Lemma dot_self_nonneg (u : list R) : (0 <= dot u u)%R.
Proof.
  unfold dot. induction u as [|x u IH]; simpl; [lra|].
  pose proof (Rle_0_sqr x) as Hx. unfold Rsqr in Hx. lra.
Qed.

(** X19.  Every matrix the custom generator returns has [emax] rows of
    [emax] entries, and its diagonal entries, sums of squares, are not
    negative. *)
Theorem gen_custom_square_diagonal (e_vec : list (Z * list R)) (emax : Z) (M : matrix) :
  gen_custom e_vec emax = Ok M ->
  shape (Z.to_nat emax) (Z.to_nat emax) M /\
  forall i, 0 <= i < emax ->
    exists u, getitem2 M i i = Ok (dot u u) /\ (0 <= dot u u)%R.
Proof.
  intros (_ & tmp & Hlen & ->)%gen_custom_sound. split.
  - unfold np_dot_T. split; [rewrite length_fmap; assumption|].
    apply Forall_fmap, Forall_forall. intros u _. simpl.
    rewrite length_fmap. assumption.
  - intros i Hi.
    destruct (lookup_lt_is_Some_2 tmp (Z.to_nat i)) as [u Hu]; [lia|].
    exists u. split; [|apply dot_self_nonneg].
    apply getitem2_np_dot_T; try assumption; lia.
Qed.

Lemma gen_custom_square_diagonal_witness :
  shape (Z.to_nat 2) (Z.to_nat 2)
    [[dot [0%R] [0%R]; dot [0%R] [1%R]]; [dot [1%R] [0%R]; dot [1%R] [1%R]]] /\
  forall i, 0 <= i < 2 ->
    exists u,
      getitem2 [[dot [0%R] [0%R]; dot [0%R] [1%R]]; [dot [1%R] [0%R]; dot [1%R] [1%R]]]
        i i = Ok (dot u u) /\ (0 <= dot u u)%R.
Proof. apply (gen_custom_square_diagonal [(1, [1%R])] 2). reflexivity. Defined.

(** ** More on the table-based generators *)

Lemma exp_monotone (x y : R) : (x <= y -> exp x <= exp y)%R.
Proof.
  intros [Hlt| ->]; [left; apply exp_increasing, Hlt | right; reflexivity].
Qed.

Lemma gaussian_term_antitone (x w1 w2 : R) :
  (0 < w1 -> w1 <= w2 -> x ^ 2 / (4 * w2 ^ 2) <= x ^ 2 / (4 * w1 ^ 2))%R.
Proof.
  intros Hw1 Hw12. unfold Rdiv.
  apply Rmult_le_compat_l; [apply pow2_ge_0|].
  apply Rinv_le_contravar; [nra|]. nra.
Qed.

Lemma periodic_similarity_monotone (pa pb : Z * Z) (r1 c1 r2 c2 : R) :
  (0 < r1)%R -> (r1 <= r2)%R -> (0 < c1)%R -> (c1 <= c2)%R ->
  (periodic_similarity pa pb r1 c1 <= periodic_similarity pa pb r2 c2)%R.
Proof.
  intros Hr1 Hr Hc1 Hc. unfold periodic_similarity. apply exp_monotone.
  pose proof (gaussian_term_antitone (IZR (pa.1 - pb.1)) r1 r2 Hr1 Hr).
  pose proof (gaussian_term_antitone (IZR (pa.2 - pb.2)) c1 c2 Hc1 Hc).
  unfold Rdiv in *. lra.
Qed.

Lemma QNum_similarity_monotone (qa qb : Z * Z * Z * Q)
    (n1 m1 l1 s1 n2 m2 l2 s2 : R) :
  (0 < n1)%R -> (n1 <= n2)%R -> (0 < m1)%R -> (m1 <= m2)%R ->
  (0 < l1)%R -> (l1 <= l2)%R -> (0 < s1)%R -> (s1 <= s2)%R ->
  (QNum_similarity qa qb n1 m1 l1 s1 <= QNum_similarity qa qb n2 m2 l2 s2)%R.
Proof.
  intros Hn1 Hn Hm1 Hm Hl1 Hl Hs1 Hs. unfold QNum_similarity. apply exp_monotone.
  pose proof (gaussian_term_antitone (IZR (idx0 qa - idx0 qb)) n1 n2 Hn1 Hn).
  pose proof (gaussian_term_antitone (IZR (idx1 qa - idx1 qb)) m1 m2 Hm1 Hm).
  pose proof (gaussian_term_antitone (IZR (idx2 qa - idx2 qb)) l1 l2 Hl1 Hl).
  pose proof (gaussian_term_antitone (Q2R (idx3 qa) - Q2R (idx3 qb)) s1 s2 Hs1 Hs).
  unfold Rdiv in *. lra.
Qed.

(** X20.  Widening the bandwidths never lowers a similarity: entry by
    entry, the matrix [gen_pd] returns for the larger positive widths is at
    least the one it returns for the smaller, and so for
    [gen_QNum_distances]. *)
Theorem table_similarity_monotone_in_width (emax : Z)
    (r1 c1 r2 c2 n1 m1 l1 s1 n2 m2 l2 s2 : R) :
  (0 < r1 <= r2)%R -> (0 < c1 <= c2)%R ->
  (0 < n1 <= n2)%R -> (0 < m1 <= m2)%R -> (0 < l1 <= l2)%R -> (0 < s1 <= s2)%R ->
  (forall M1 M2,
     gen_pd emax r1 c1 = Ok M1 -> gen_pd emax r2 c2 = Ok M2 ->
     forall i j, 0 <= i < emax -> 0 <= j < emax ->
       exists a b, getitem2 M1 i j = Ok a /\ getitem2 M2 i j = Ok b /\ (a <= b)%R) /\
  (forall M1 M2,
     gen_QNum_distances emax n1 m1 l1 s1 = Ok M1 ->
     gen_QNum_distances emax n2 m2 l2 s2 = Ok M2 ->
     forall i j, 0 <= i < emax -> 0 <= j < emax ->
       exists a b, getitem2 M1 i j = Ok a /\ getitem2 M2 i j = Ok b /\ (a <= b)%R).
Proof.
  intros Hr Hc Hn Hm Hl Hs. split.
  - intros M1 M2 (_ & Hs1 & H1)%gen_pd_sound (_ & Hs2 & H2)%gen_pd_sound i j Hi Hj.
    destruct (getitem2_inrange _ _ M1 i j Hs1) as [a Ha]; [lia..|].
    destruct (getitem2_inrange _ _ M2 i j Hs2) as [b Hb]; [lia..|].
    exists a, b. split; [assumption|]. split; [assumption|].
    rewrite H1 in Ha by assumption. rewrite H2 in Hb by assumption.
    apply periodic_distance_Ok_inv in Ha as (pa & pb & Hpa & Hpb & _ & _ & ->).
    apply periodic_distance_Ok_inv in Hb as (pa' & pb' & Hpa' & Hpb' & _ & _ & ->).
    assert (pa' = pa) by congruence. assert (pb' = pb) by congruence. subst.
    apply periodic_similarity_monotone; lra.
  - intros M1 M2 (_ & Hs1 & H1)%gen_QNum_distances_sound
      (_ & Hs2 & H2)%gen_QNum_distances_sound i j Hi Hj.
    destruct (getitem2_inrange _ _ M1 i j Hs1) as [a Ha]; [lia..|].
    destruct (getitem2_inrange _ _ M2 i j Hs2) as [b Hb]; [lia..|].
    exists a, b. split; [assumption|]. split; [assumption|].
    rewrite H1 in Ha by assumption. rewrite H2 in Hb by assumption.
    apply QNum_distance_Ok_inv in Ha as (qa & qb & Hqa & Hqb & _ & _ & _ & _ & ->).
    apply QNum_distance_Ok_inv in Hb as (qa' & qb' & Hqa' & Hqb' & _ & _ & _ & _ & ->).
    assert (qa' = qa) by congruence. assert (qb' = qb) by congruence. subst.
    apply QNum_similarity_monotone; lra.
Qed.

Lemma table_similarity_monotone_in_width_witness :
  (forall M1 M2,
     gen_pd 2 1 1 = Ok M1 -> gen_pd 2 2 2 = Ok M2 ->
     forall i j, 0 <= i < 2 -> 0 <= j < 2 ->
       exists a b, getitem2 M1 i j = Ok a /\ getitem2 M2 i j = Ok b /\ (a <= b)%R) /\
  (forall M1 M2,
     gen_QNum_distances 2 1 1 1 1 = Ok M1 -> gen_QNum_distances 2 2 2 2 2 = Ok M2 ->
     forall i j, 0 <= i < 2 -> 0 <= j < 2 ->
       exists a b, getitem2 M1 i j = Ok a /\ getitem2 M2 i j = Ok b /\ (a <= b)%R).
Proof.
  apply (table_similarity_monotone_in_width 2 1 1 2 2 1 1 1 1 2 2 2 2); lra.
Defined.

(** X21.  With [emax >= 1], a zero first bandwidth ([r_width] of [gen_pd],
    [n_width] of [gen_QNum_distances]) raises [ZeroDivisionError] on the
    first entry, whatever the other bandwidths are. *)
Theorem table_generators_zero_width (emax : Z) (c_width m_width l_width s_width : R) :
  1 <= emax ->
  gen_pd emax 0 c_width = Raise ZeroDivisionError /\
  gen_QNum_distances emax 0 m_width l_width s_width = Raise ZeroDivisionError.
Proof.
  intros Hemax. split.
  - apply gen_pd_zero_r_width, Hemax.
  - apply gen_QNum_distances_zero_n_width, Hemax.
Qed.

Lemma table_generators_zero_width_witness :
  gen_pd 100 0 1 = Raise ZeroDivisionError /\
  gen_QNum_distances 100 0 1 1 1 = Raise ZeroDivisionError.
Proof. apply (table_generators_zero_width 100 1 1 1 1). lia. Defined.

(** X22.  In the off mode and the two table-based modes, [emax = 0] gives
    the empty matrix, whatever the bandwidths, and a negative [emax] is a
    [ValueError]. *)
Theorem get_alchemy_no_elements (mode : string) (emax : Z) (r_width c_width : R)
    (elemental_vectors : list (Z * list R)) (n_width m_width l_width s_width : R) :
  mode ∈ ["off"; "periodic-table"; "quantum-numbers"]%string ->
  (emax = 0 ->
   get_alchemy (Str mode) emax r_width c_width elemental_vectors
     n_width m_width l_width s_width
   = ([], Ok (negb (String.eqb mode "off"), []))) /\
  (emax < 0 ->
   get_alchemy (Str mode) emax r_width c_width elemental_vectors
     n_width m_width l_width s_width
   = ([], Raise ValueError)).
Proof.
  intros Hmode. split; intros Hemax.
  - subst emax.
    repeat (apply elem_of_cons in Hmode as [->|Hmode]; [reflexivity|]).
    inversion Hmode.
  - assert (Hz : forall c, np_zeros2 emax c = Raise ValueError).
    { intros c. unfold np_zeros2. rewrite decide_True by lia. reflexivity. }
    repeat (apply elem_of_cons in Hmode as [->|Hmode];
            [unfold get_alchemy, gen_pd, gen_QNum_distances, np_eye;
             cbn [String.eqb Ascii.eqb Bool.eqb];
             rewrite ?Hz, ?decide_True by lia; reflexivity|]).
    inversion Hmode.
Qed.

Lemma get_alchemy_no_elements_witness :
  get_alchemy (Str "periodic-table") 0 0 0 [] 0 0 0 0 = ([], Ok (true, [])) /\
  get_alchemy (Str "off") (-1) 1 1 [] 1 1 1 1 = ([], Raise ValueError).
Proof.
  split.
  - apply (proj1 (get_alchemy_no_elements "periodic-table" 0 0 0 [] 0 0 0 0
                    ltac:(right; left))).
    reflexivity.
  - apply (proj2 (get_alchemy_no_elements "off" (-1) 1 1 [] 1 1 1 1 ltac:(left))).
    lia.
Defined.

Lemma atomic_pairs_forall (P : Z -> Z -> bool) :
  forallb (fun a => forallb (P a) atomic_numbers) atomic_numbers = true ->
  forall a b, 1 <= a <= 118 -> 1 <= b <= 118 -> P a b = true.
Proof.
  intros Hall a b Ha Hb. rewrite forallb_forall in Hall.
  apply elem_of_atomic_numbers, list_elem_of_In, Hall in Ha.
  rewrite forallb_forall in Ha.
  apply Ha, list_elem_of_In, elem_of_atomic_numbers, Hb.
Qed.

(** X23.  In every matrix [gen_pd] returns, two elements with the same
    position in [PTP] have similarity 1, whatever the bandwidths; the one
    pair of different elements in that case is 102 and 108. *)
Theorem gen_pd_same_position (emax : Z) (r_width c_width : R) (M : matrix) :
  gen_pd emax r_width c_width = Ok M ->
  (forall i j, 0 <= i < emax -> 0 <= j < emax ->
     PTP !! (i + 1) = PTP !! (j + 1) -> getitem2 M i j = Ok 1%R) /\
  (forall a b, 1 <= a < b -> b <= 118 ->
     (PTP !! a = PTP !! b <-> a = 102 /\ b = 108)).
Proof.
  intros (_ & Hshape & Hent)%gen_pd_sound. split.
  - intros i j Hi Hj Hsame.
    destruct (getitem2_inrange _ _ M i j Hshape) as [x Hx]; [lia..|].
    rewrite Hx. rewrite Hent in Hx by assumption.
    apply periodic_distance_Ok_inv in Hx as (pa & pb & Ha & Hb & _ & _ & ->).
    assert (pa = pb) as -> by congruence.
    rewrite periodic_similarity_self. reflexivity.
  - intros a b Hab Hb.
    assert (Hall : forallb (fun a => forallb (fun b => implb (a <? b)
              (Bool.eqb (bool_decide (PTP !! a = PTP !! b))
                 ((a =? 102) && (b =? 108)))) atomic_numbers) atomic_numbers = true)
      by (vm_compute; reflexivity).
    pose proof (atomic_pairs_forall _ Hall a b ltac:(lia) ltac:(lia)) as Hcheck.
    cbv beta in Hcheck.
    rewrite (proj2 (Z.ltb_lt a b)) in Hcheck by lia. cbn [implb] in Hcheck.
    apply Bool.eqb_prop in Hcheck.
    rewrite <- (bool_decide_spec (PTP !! a = PTP !! b)), Hcheck.
    rewrite Is_true_true, andb_true_iff, !Z.eqb_eq. reflexivity.
Qed.

Lemma gen_pd_same_position_witness :
  exists M, gen_pd 108 1 1 = Ok M /\
    (forall i j, 0 <= i < 108 -> 0 <= j < 108 ->
       PTP !! (i + 1) = PTP !! (j + 1) -> getitem2 M i j = Ok 1%R) /\
    (forall a b, 1 <= a < b -> b <= 118 ->
       (PTP !! a = PTP !! b <-> a = 102 /\ b = 108)).
Proof.
  destruct (gen_pd_total 108 1 1) as [M HM]; [lia | lra | lra |].
  exists M. split; [exact HM|]. apply (gen_pd_same_position 108 1 1 M HM).
Defined.

(** X24.  In every matrix [gen_QNum_distances] returns, two elements with
    the same row in [QtNm] have similarity 1, whatever the bandwidths; the
    one pair of different elements in that case is 22 and 31. *)
Theorem gen_QNum_distances_same_row (emax : Z) (n_width m_width l_width s_width : R)
    (M : matrix) :
  gen_QNum_distances emax n_width m_width l_width s_width = Ok M ->
  (forall i j, 0 <= i < emax -> 0 <= j < emax ->
     QtNm !! (i + 1) = QtNm !! (j + 1) -> getitem2 M i j = Ok 1%R) /\
  (forall a b, 1 <= a < b -> b <= 118 ->
     (QtNm !! a = QtNm !! b <-> a = 22 /\ b = 31)).
Proof.
  intros (_ & Hshape & Hent)%gen_QNum_distances_sound. split.
  - intros i j Hi Hj Hsame.
    destruct (getitem2_inrange _ _ M i j Hshape) as [x Hx]; [lia..|].
    rewrite Hx. rewrite Hent in Hx by assumption.
    apply QNum_distance_Ok_inv in Hx as (qa & qb & Ha & Hb & _ & _ & _ & _ & ->).
    assert (qa = qb) as -> by congruence.
    rewrite QNum_similarity_self. reflexivity.
  - intros a b Hab Hb.
    assert (Hall : forallb (fun a => forallb (fun b => implb (a <? b)
              (Bool.eqb (bool_decide (QtNm !! a = QtNm !! b))
                 ((a =? 22) && (b =? 31)))) atomic_numbers) atomic_numbers = true)
      by (vm_compute; reflexivity).
    pose proof (atomic_pairs_forall _ Hall a b ltac:(lia) ltac:(lia)) as Hcheck.
    cbv beta in Hcheck.
    rewrite (proj2 (Z.ltb_lt a b)) in Hcheck by lia. cbn [implb] in Hcheck.
    apply Bool.eqb_prop in Hcheck.
    rewrite <- (bool_decide_spec (QtNm !! a = QtNm !! b)), Hcheck.
    rewrite Is_true_true, andb_true_iff, !Z.eqb_eq. reflexivity.
Qed.

Lemma gen_QNum_distances_same_row_witness :
  exists M, gen_QNum_distances 31 1 1 1 1 = Ok M /\
    (forall i j, 0 <= i < 31 -> 0 <= j < 31 ->
       QtNm !! (i + 1) = QtNm !! (j + 1) -> getitem2 M i j = Ok 1%R) /\
    (forall a b, 1 <= a < b -> b <= 118 ->
       (QtNm !! a = QtNm !! b <-> a = 22 /\ b = 31)).
Proof.
  destruct (gen_QNum_distances_total 31 1 1 1 1) as [M HM]; [lia | lra..|].
  exists M. split; [exact HM|].
  apply (gen_QNum_distances_same_row 31 1 1 1 1 M HM).
Defined.

(** ** The scalar validators *)

(** X25.  Whatever [is_positive_integer] accepts is an [int] (a [bool]
    included) that the four weaker validators accept as well; no float,
    string, [None], dict or array-like value is accepted. *)
Theorem is_positive_integer_implies (x : Utils.value) :
  Utils.is_positive_integer x = true ->
  Utils.is_positive x = true /\
  Utils.is_positive_or_zero x = true /\
  Utils.is_positive_integer_or_zero x = true /\
  Utils.is_non_zero_integer x = true /\
  ((exists z, x = Utils.VInt z /\ 0 < z) \/ x = Utils.VBool true).
Proof.
  destruct x as [|[]|z|r|s|items|items|sh|items]; try discriminate.
  - intros _. repeat split. right. reflexivity.
  - unfold Utils.is_positive_integer, Utils.is_positive, Utils.is_positive_or_zero,
      Utils.is_positive_integer_or_zero, Utils.is_non_zero_integer. simpl.
    intros Hz%Z.ltb_lt. rewrite (proj2 (Z.ltb_lt 0 z) Hz).
    rewrite (proj2 (Z.leb_le 0 z)) by lia.
    rewrite (proj2 (Z.eqb_neq z 0)) by lia.
    repeat split. left. eauto.
Qed.

Lemma is_positive_integer_implies_witness :
  Utils.is_positive (Utils.VInt 3) = true /\
  Utils.is_positive_or_zero (Utils.VInt 3) = true /\
  Utils.is_positive_integer_or_zero (Utils.VInt 3) = true /\
  Utils.is_non_zero_integer (Utils.VInt 3) = true /\
  ((exists z, Utils.VInt 3 = Utils.VInt z /\ 0 < z) \/ Utils.VInt 3 = Utils.VBool true).
Proof. apply (is_positive_integer_implies (Utils.VInt 3)). reflexivity. Defined.
